(** * cc: the C/C++ module planner of android/soong (cc/cc.go)

    A shallow embedding of the dependency classifier ([Module.deps],
    [depsMutator]), the dependency resolver ([depsToPaths]), the link-mode
    variant expander ([linkageMutator]) and the illegal-flag filter of
    [GenerateAndroidBuildActions], followed by the properties established
    for them. *)

From Stdlib Require Import Ascii String.
From stdpp Require Import base option list strings gmap.

Open Scope string_scope.
Open Scope list_scope.

(** ** Properties and delegates

    The property structs keep the fields that the functions embedded below
    read or write; a [*bool] is an [option bool], a slice that the code tests
    against [nil] is an [option (list string)], an [android.Path] is the
    string it prints as. *)

Definition Path := string.

Inductive OsType := Android | Linux | Darwin | Windows.

#[global] Instance OsType_eq_dec : EqDecision OsType.
Proof. solve_decision. Defined.

(** Modelled from the spec: the [Toolchain] interface is not part of the
    source; the record answers the methods the embedded functions call. *)
Record Toolchain := {
  Is64Bit : bool;
  ClangSupported : bool;
  ShlibSuffix : string;
  ExecutableSuffix : string;
}.

Record Deps := {
  SharedLibs : list string; LateSharedLibs : list string;
  StaticLibs : list string; LateStaticLibs : list string;
  WholeStaticLibs : list string;
  ReexportSharedLibHeaders : list string;
  ReexportStaticLibHeaders : list string;
  ObjFiles : list string;
  GeneratedSources : list string;
  GeneratedHeaders : list string;
  Cflags : list string; ReexportedCflags : list string;
  CrtBegin : string; CrtEnd : string;
}.

Record PathDeps := {
  pSharedLibs : list Path; pLateSharedLibs : list Path;
  pStaticLibs : list Path; pLateStaticLibs : list Path;
  pWholeStaticLibs : list Path;
  pObjFiles : list Path;
  pWholeStaticLibObjFiles : list Path;
  pGeneratedSources : list Path;
  pGeneratedHeaders : list Path;
  pCflags : list string; pReexportedCflags : list string;
  pCrtBegin : option Path; pCrtEnd : option Path;
}.

Record Flags := {
  GlobalFlags : list string;
  AsFlags : list string;
  CFlags : list string;
  ConlyFlags : list string;
  CppFlags : list string;
  YaccFlags : list string;
  LdFlags : list string;
  libFlags : list string;
  Nocrt : bool;
  Toolchain_ : Toolchain;
  Clang : bool;
  RequiredInstructionSet : string;
  DynamicLinker : string;
  CFlagsDeps : list Path;
}.

Record BaseCompilerProperties := {
  Srcs : list string;
  Exclude_srcs : list string;
  Generated_sources : list string;
  Generated_headers : list string;
}.

Record BaseLinkerProperties := {
  Whole_static_libs : list string;
  Static_libs : list string;
  Shared_libs : list string;
  System_shared_libs : option (list string);
  No_libgcc : option bool;
  Export_shared_lib_headers : list string;
  Export_static_lib_headers : list string;
}.

Record LibraryCompilerVariantProperties := {
  v_Srcs : list string;
  v_Exclude_srcs : list string;
  v_Cflags : list string;
}.

Record LibraryCompilerProperties := {
  cStatic : LibraryCompilerVariantProperties;
  cShared : LibraryCompilerVariantProperties;
}.

Record LibraryLinkerVariantProperties := {
  v_Enabled : option bool;
  v_Whole_static_libs : list string;
  v_Static_libs : list string;
  v_Shared_libs : list string;
}.

Record LibraryLinkerProperties := {
  lStatic : LibraryLinkerVariantProperties;
  lShared : LibraryLinkerVariantProperties;
  Version_script : option string;
  Unexported_symbols_list : option string;
  Force_symbols_not_weak_list : option string;
  Force_symbols_weak_list : option string;
  lNocrt : option bool;
  VariantName : string;
}.

Record BinaryLinkerProperties := {
  Static_executable : option bool;
  Stem : string;
  Suffix : string;
  Prefix_symbols : string;
}.

Record TestLinkerProperties := {
  Gtest : bool;
  Test_per_src : option bool;
}.

Record ObjectLinkerProperties := { Objs : list string }.

Record BaseProperties := {
  pClang : option bool;
  Sdk_version : string;
  AndroidMkSharedLibs : list string;
}.

Record StripProperties := { Strip_None : bool; Strip_Keep_symbols : bool }.

Record baseCompiler := { bcProperties : BaseCompilerProperties }.

Record libraryCompiler := {
  lc_baseCompiler : baseCompiler;
  lcProperties : LibraryCompilerProperties;
  reuseObjFiles : list Path;
}.

(** The implementations of the [compiler] interface in this file. *)
Inductive compiler :=
| BaseCompiler (c : baseCompiler)
| LibraryCompiler (c : libraryCompiler).

Record baseLinker := {
  blProperties : BaseLinkerProperties;
  VariantIsShared : bool;
  VariantIsStatic : bool;
  VariantIsStaticBinary : bool;
  RunPaths : list string;
}.

Record libraryLinker := {
  ll_baseLinker : baseLinker;
  exported_flags : list string;        (* flagExporter.flags *)
  Export_include_dirs : list string;   (* flagExporter.Properties *)
  ll_stripper : StripProperties;
  llProperties : LibraryLinkerProperties;
  BuildStatic : bool;
  BuildShared : bool;
  wholeStaticMissingDeps : option (list string);
  objFiles : list Path;
}.

Record binaryLinker := {
  bin_baseLinker : baseLinker;
  bin_stripper : StripProperties;
  binProperties : BinaryLinkerProperties;
  hostToolPath : option Path;
}.

Record testLinker := {
  t_binaryLinker : binaryLinker;
  tProperties : TestLinkerProperties;
}.

Record objectLinker := { oProperties : ObjectLinkerProperties }.

(** The implementations of the [linker] interface in this file.
    [benchmarkLinker] embeds a [binaryLinker], [toolchainLibraryLinker] a
    [baseLinker], [ndkPrebuiltObjectLinker] an [objectLinker],
    [ndkPrebuiltLibraryLinker] a [libraryLinker] and [ndkPrebuiltStlLinker]
    an [ndkPrebuiltLibraryLinker]. *)
Inductive linker :=
| LibraryLinker (l : libraryLinker)
| BinaryLinker (b : binaryLinker)
| TestLinker (t : testLinker)
| BenchmarkLinker (b : binaryLinker)
| ObjectLinker (o : objectLinker)
| ToolchainLibraryLinker (b : baseLinker)
| NdkPrebuiltObjectLinker (o : objectLinker)
| NdkPrebuiltLibraryLinker (l : libraryLinker)
| NdkPrebuiltStlLinker (l : libraryLinker).

(** ** Errors, contexts, modules and the build state *)

(** An error reported through [ctx.ModuleErrorf] or [ctx.PropertyErrorf]:
    the format string and its arguments. *)
Inductive Error :=
| ModuleError (fmt : string) (args : list string)
| PropertyError (property fmt : string) (args : list string).

(** The outcome of a call: a Go [panic] with its message, or a return. *)
Inductive Result (A : Type) :=
| Panic (fmt : string) (args : list string)
| Ok (a : A).
Arguments Panic {A} fmt args.
Arguments Ok {A} a.

(** Modelled from the spec: the [android] package is not part of the source.
    [android.BaseContext] gives the module name, the target OS and
    architecture, the toolchain of the target, configuration switches and
    the source and output directories of the module; whether the target is a
    device or a host follows from the OS. *)
Record BaseContext := {
  ModuleName : string;
  Os : OsType;
  ArchType : string;
  ctx_toolchain : Toolchain;
  HostStaticBinaries : option bool;
  DeviceUsesClang : bool;
  EmbeddedInMake : bool;
  ModuleSrcDir : string;
  ModuleOutDir : string;
}.

Definition Device (ctx : BaseContext) : bool := bool_decide (Os ctx = Android).
Definition Host (ctx : BaseContext) : bool := negb (Device ctx).
Definition isDarwin (ctx : BaseContext) : bool := bool_decide (Os ctx = Darwin).

(** Modelled from the spec: [stl.go] and [sanitize.go] are not part of the
    source, nor is any implementation of [feature] other than the compilers
    and linkers below.  Such a stage is a function of the context and of the
    value it is handed, which may report errors or panic. *)
Record feature := {
  feature_deps : BaseContext → Deps → Result (Deps * list Error);
  feature_flags : BaseContext → Flags → Result (Flags * list Error);
}.

(** The [stl] delegate of a module: the STL it selected, and its stages. *)
Record stl := {
  SelectedStl : string;
  stl_feature : feature;
}.

Record dependencyTag := {
  name : string;
  library : bool;
  reexportFlags : bool;
}.

#[global] Instance dependencyTag_eq_dec : EqDecision dependencyTag.
Proof. solve_decision. Defined.

Definition sharedDepTag := {| name := "shared"; library := true; reexportFlags := false |}.
Definition sharedExportDepTag := {| name := "shared"; library := true; reexportFlags := true |}.
Definition lateSharedDepTag := {| name := "late shared"; library := true; reexportFlags := false |}.
Definition staticDepTag := {| name := "static"; library := true; reexportFlags := false |}.
Definition staticExportDepTag := {| name := "static"; library := true; reexportFlags := true |}.
Definition lateStaticDepTag := {| name := "late static"; library := true; reexportFlags := false |}.
Definition wholeStaticDepTag := {| name := "whole static"; library := true; reexportFlags := true |}.
Definition genSourceDepTag := {| name := "gen source"; library := false; reexportFlags := false |}.
Definition genHeaderDepTag := {| name := "gen header"; library := false; reexportFlags := false |}.
Definition objDepTag := {| name := "obj"; library := false; reexportFlags := false |}.
Definition crtBeginDepTag := {| name := "crtbegin"; library := false; reexportFlags := false |}.
Definition crtEndDepTag := {| name := "crtend"; library := false; reexportFlags := false |}.
Definition reuseObjTag := {| name := "reuse objects"; library := false; reexportFlags := false |}.

(** A [blueprint.DependencyTag] as [depsToPaths] sees it: the tag of
    [android.DefaultsDepTag], a [dependencyTag] of this package, or a tag of
    another type. *)
Inductive DependencyTag :=
| DefaultsDepTag
| CcDepTag (t : dependencyTag)
| ForeignDepTag.

#[global] Instance DependencyTag_eq_dec : EqDecision DependencyTag.
Proof. solve_decision. Defined.

(** [cc.Module], with the fields of the embedded [android.ModuleBase] that
    [depsToPaths] reads ([Enabled], [Target]).  No factory in the file sets a
    [customizer]; the field is left out. *)
Record Module := {
  Enabled : bool;
  Target_Os : OsType;
  Target_ArchType : string;
  Properties : BaseProperties;
  m_compiler : option compiler;
  m_linker : option linker;
  m_stl : option stl;
  m_sanitize : option feature;
  m_features : list feature;
  outputFile : option Path;
}.

Record BaseModuleContext := {
  actx :> BaseContext;
  mod_ : Module;
}.

(** A module of the build graph as the resolver's type assertions see it:
    not an [android.Module]; a [genrule.SourceFileGenerator]; another
    android module (a defaults module, say); a [*cc.Module]. *)
Inductive BlueprintModule :=
| NonAndroidModule
| SourceFileGenerator (GeneratedSourceFiles : list Path) (GeneratedHeaderDir : Path)
| OtherAndroidModule
| CcModule (m : Module).

Record Node := {
  node_name : string;
  node_module : BlueprintModule;
}.

(** A direct dependency edge of the module being visited: the node it leads
    to and its tag. *)
Record DirectDep := {
  dep_node : nat;
  dep_tag : DependencyTag;
}.

(** The rules and variables handed to the builder. *)
Inductive BuildRule :=
| Variable_ (name value : string)
| CheckbuildFile (file : Path)
| TransformObjToStaticLib (objFiles : list Path) (flags : Flags) (outputFile : Path)
| TransformDarwinObjToStaticLib (objFiles : list Path) (flags : Flags) (outputFile : Path)
| TransformObjToDynamicBinary
    (objFiles sharedLibs staticLibs lateStaticLibs wholeStaticLibs deps : list Path)
    (crtBegin crtEnd : option Path) (groupLate : bool) (flags : Flags)
    (outputFile : Path)
| TransformStrip (inputFile outputFile : Path) (flags : Flags)
    (stripKeepSymbols stripAddGnuDebuglink : bool)
| TransformDarwinStrip (inputFile outputFile : Path).

(** The state a module context and the build graph carry: the errors
    reported so far, the missing dependencies recorded for the module, the
    modules of the graph (shared by every module that depends on them), and
    the rules emitted. *)
Record State := {
  errs : list Error;
  missingDeps : list string;
  graph : gmap nat Node;
  rules : list BuildRule;
}.

Definition set_errs (v : list Error) (st : State) : State :=
  {| errs := v; missingDeps := missingDeps st; graph := graph st; rules := rules st |}.
Definition set_missingDeps (v : list string) (st : State) : State :=
  {| errs := errs st; missingDeps := v; graph := graph st; rules := rules st |}.
Definition set_graph (v : gmap nat Node) (st : State) : State :=
  {| errs := errs st; missingDeps := missingDeps st; graph := v; rules := rules st |}.
Definition set_rules (v : list BuildRule) (st : State) : State :=
  {| errs := errs st; missingDeps := missingDeps st; graph := graph st; rules := v |}.

(** ** The monad of module code: state passing, with panics *)

Definition M (A : Type) : Type := State → Result (A * State).

#[global] Instance M_ret : MRet M := λ A a st, Ok (a, st).
#[global] Instance M_bind : MBind M := λ A B f m st,
  match m st with
  | Panic fmt args => Panic fmt args
  | Ok (a, st') => f a st'
  end.

Definition panic {A} (fmt : string) (args : list string) : M A :=
  λ _, Panic fmt args.

(** Modelled from the spec: the error reporting of [android.BaseContext] is
    not part of the source.  [ModuleErrorf] and [PropertyErrorf] record an
    error and return; [Failed] tells whether an error was recorded. *)
Definition ModuleErrorf (fmt : string) (args : list string) : M unit :=
  λ st, Ok ((), set_errs (errs st ++ [ModuleError fmt args]) st).

Definition PropertyErrorf (property fmt : string) (args : list string) : M unit :=
  λ st, Ok ((), set_errs (errs st ++ [PropertyError property fmt args]) st).

Definition Failed : M bool :=
  λ st, Ok (bool_decide (errs st ≠ []), st).

(** Modelled from the spec: [AddMissingDependencies] and
    [GetMissingDependencies] of [android.ModuleContext] are not part of the
    source.  The context keeps one list of names; the getter returns it, [nil]
    while nothing was recorded. *)
Definition AddMissingDependencies (deps : list string) : M unit :=
  λ st, Ok ((), set_missingDeps (missingDeps st ++ deps) st).

Definition GetMissingDependencies : M (option (list string)) :=
  λ st, Ok (match missingDeps st with [] => None | l => Some l end, st).

Definition emit (r : BuildRule) : M unit :=
  λ st, Ok ((), set_rules (rules st ++ [r]) st).

(** A stage that is not part of the source, run in the context. *)
Definition run_feature {A} (f : Result (A * list Error)) : M A :=
  λ st, match f with
        | Panic fmt args => Panic fmt args
        | Ok (a, es) => Ok (a, set_errs (errs st ++ es) st)
        end.

(** [for _, x := range l { body }] *)
Fixpoint forRange {A} (l : list A) (body : A → M unit) : M unit :=
  match l with
  | [] => mret ()
  | x :: r => body x ;; forRange r body
  end.

(** ** Helpers *)

(** Modelled from the spec: [proptools.Bool] is not part of the source; a
    [*bool] that is unset counts as [false]. *)
Definition Bool (b : option bool) : bool := default false b.

(** Modelled from the spec: [inList] (util.go) is not part of the source; it
    tells whether a name occurs in a list. *)
Definition inList (s : string) (l : list string) : bool := bool_decide (s ∈ l).

(** Modelled from the spec: [filterList] (util.go) is not part of the source;
    it splits a list, in order, into the entries that are not in [filter_]
    (the remainder) and those that are (the filtered ones). *)
Definition filterList (l filter_ : list string) : list string * list string :=
  (filter (λ x, x ∉ filter_) l, filter (λ x, x ∈ filter_) l).

(** [strings.Join] *)
Definition Join (l : list string) (sep : string) : string := String.concat sep l.

Definition EmptyDeps : Deps :=
  {| SharedLibs := []; LateSharedLibs := []; StaticLibs := []; LateStaticLibs := [];
     WholeStaticLibs := []; ReexportSharedLibHeaders := [];
     ReexportStaticLibHeaders := []; ObjFiles := []; GeneratedSources := [];
     GeneratedHeaders := []; Cflags := []; ReexportedCflags := [];
     CrtBegin := ""; CrtEnd := "" |}.

(** Assignments to one field of a [Deps]. *)
Definition set_SharedLibs (v : list string) (d : Deps) : Deps :=
  {| SharedLibs := v; LateSharedLibs := LateSharedLibs d;
     StaticLibs := StaticLibs d; LateStaticLibs := LateStaticLibs d;
     WholeStaticLibs := WholeStaticLibs d;
     ReexportSharedLibHeaders := ReexportSharedLibHeaders d;
     ReexportStaticLibHeaders := ReexportStaticLibHeaders d;
     ObjFiles := ObjFiles d; GeneratedSources := GeneratedSources d;
     GeneratedHeaders := GeneratedHeaders d; Cflags := Cflags d;
     ReexportedCflags := ReexportedCflags d; CrtBegin := CrtBegin d;
     CrtEnd := CrtEnd d |}.
Definition set_LateSharedLibs (v : list string) (d : Deps) : Deps :=
  {| SharedLibs := SharedLibs d; LateSharedLibs := v;
     StaticLibs := StaticLibs d; LateStaticLibs := LateStaticLibs d;
     WholeStaticLibs := WholeStaticLibs d;
     ReexportSharedLibHeaders := ReexportSharedLibHeaders d;
     ReexportStaticLibHeaders := ReexportStaticLibHeaders d;
     ObjFiles := ObjFiles d; GeneratedSources := GeneratedSources d;
     GeneratedHeaders := GeneratedHeaders d; Cflags := Cflags d;
     ReexportedCflags := ReexportedCflags d; CrtBegin := CrtBegin d;
     CrtEnd := CrtEnd d |}.
Definition set_StaticLibs (v : list string) (d : Deps) : Deps :=
  {| SharedLibs := SharedLibs d; LateSharedLibs := LateSharedLibs d;
     StaticLibs := v; LateStaticLibs := LateStaticLibs d;
     WholeStaticLibs := WholeStaticLibs d;
     ReexportSharedLibHeaders := ReexportSharedLibHeaders d;
     ReexportStaticLibHeaders := ReexportStaticLibHeaders d;
     ObjFiles := ObjFiles d; GeneratedSources := GeneratedSources d;
     GeneratedHeaders := GeneratedHeaders d; Cflags := Cflags d;
     ReexportedCflags := ReexportedCflags d; CrtBegin := CrtBegin d;
     CrtEnd := CrtEnd d |}.
Definition set_LateStaticLibs (v : list string) (d : Deps) : Deps :=
  {| SharedLibs := SharedLibs d; LateSharedLibs := LateSharedLibs d;
     StaticLibs := StaticLibs d; LateStaticLibs := v;
     WholeStaticLibs := WholeStaticLibs d;
     ReexportSharedLibHeaders := ReexportSharedLibHeaders d;
     ReexportStaticLibHeaders := ReexportStaticLibHeaders d;
     ObjFiles := ObjFiles d; GeneratedSources := GeneratedSources d;
     GeneratedHeaders := GeneratedHeaders d; Cflags := Cflags d;
     ReexportedCflags := ReexportedCflags d; CrtBegin := CrtBegin d;
     CrtEnd := CrtEnd d |}.
Definition set_WholeStaticLibs (v : list string) (d : Deps) : Deps :=
  {| SharedLibs := SharedLibs d; LateSharedLibs := LateSharedLibs d;
     StaticLibs := StaticLibs d; LateStaticLibs := LateStaticLibs d;
     WholeStaticLibs := v;
     ReexportSharedLibHeaders := ReexportSharedLibHeaders d;
     ReexportStaticLibHeaders := ReexportStaticLibHeaders d;
     ObjFiles := ObjFiles d; GeneratedSources := GeneratedSources d;
     GeneratedHeaders := GeneratedHeaders d; Cflags := Cflags d;
     ReexportedCflags := ReexportedCflags d; CrtBegin := CrtBegin d;
     CrtEnd := CrtEnd d |}.
Definition set_ReexportSharedLibHeaders (v : list string) (d : Deps) : Deps :=
  {| SharedLibs := SharedLibs d; LateSharedLibs := LateSharedLibs d;
     StaticLibs := StaticLibs d; LateStaticLibs := LateStaticLibs d;
     WholeStaticLibs := WholeStaticLibs d; ReexportSharedLibHeaders := v;
     ReexportStaticLibHeaders := ReexportStaticLibHeaders d;
     ObjFiles := ObjFiles d; GeneratedSources := GeneratedSources d;
     GeneratedHeaders := GeneratedHeaders d; Cflags := Cflags d;
     ReexportedCflags := ReexportedCflags d; CrtBegin := CrtBegin d;
     CrtEnd := CrtEnd d |}.
Definition set_ReexportStaticLibHeaders (v : list string) (d : Deps) : Deps :=
  {| SharedLibs := SharedLibs d; LateSharedLibs := LateSharedLibs d;
     StaticLibs := StaticLibs d; LateStaticLibs := LateStaticLibs d;
     WholeStaticLibs := WholeStaticLibs d;
     ReexportSharedLibHeaders := ReexportSharedLibHeaders d;
     ReexportStaticLibHeaders := v; ObjFiles := ObjFiles d;
     GeneratedSources := GeneratedSources d;
     GeneratedHeaders := GeneratedHeaders d; Cflags := Cflags d;
     ReexportedCflags := ReexportedCflags d; CrtBegin := CrtBegin d;
     CrtEnd := CrtEnd d |}.
Definition set_ObjFiles (v : list string) (d : Deps) : Deps :=
  {| SharedLibs := SharedLibs d; LateSharedLibs := LateSharedLibs d;
     StaticLibs := StaticLibs d; LateStaticLibs := LateStaticLibs d;
     WholeStaticLibs := WholeStaticLibs d;
     ReexportSharedLibHeaders := ReexportSharedLibHeaders d;
     ReexportStaticLibHeaders := ReexportStaticLibHeaders d; ObjFiles := v;
     GeneratedSources := GeneratedSources d;
     GeneratedHeaders := GeneratedHeaders d; Cflags := Cflags d;
     ReexportedCflags := ReexportedCflags d; CrtBegin := CrtBegin d;
     CrtEnd := CrtEnd d |}.
Definition set_GeneratedSources (v : list string) (d : Deps) : Deps :=
  {| SharedLibs := SharedLibs d; LateSharedLibs := LateSharedLibs d;
     StaticLibs := StaticLibs d; LateStaticLibs := LateStaticLibs d;
     WholeStaticLibs := WholeStaticLibs d;
     ReexportSharedLibHeaders := ReexportSharedLibHeaders d;
     ReexportStaticLibHeaders := ReexportStaticLibHeaders d;
     ObjFiles := ObjFiles d; GeneratedSources := v;
     GeneratedHeaders := GeneratedHeaders d; Cflags := Cflags d;
     ReexportedCflags := ReexportedCflags d; CrtBegin := CrtBegin d;
     CrtEnd := CrtEnd d |}.
Definition set_GeneratedHeaders (v : list string) (d : Deps) : Deps :=
  {| SharedLibs := SharedLibs d; LateSharedLibs := LateSharedLibs d;
     StaticLibs := StaticLibs d; LateStaticLibs := LateStaticLibs d;
     WholeStaticLibs := WholeStaticLibs d;
     ReexportSharedLibHeaders := ReexportSharedLibHeaders d;
     ReexportStaticLibHeaders := ReexportStaticLibHeaders d;
     ObjFiles := ObjFiles d; GeneratedSources := GeneratedSources d;
     GeneratedHeaders := v; Cflags := Cflags d;
     ReexportedCflags := ReexportedCflags d; CrtBegin := CrtBegin d;
     CrtEnd := CrtEnd d |}.
Definition set_CrtBegin (v : string) (d : Deps) : Deps :=
  {| SharedLibs := SharedLibs d; LateSharedLibs := LateSharedLibs d;
     StaticLibs := StaticLibs d; LateStaticLibs := LateStaticLibs d;
     WholeStaticLibs := WholeStaticLibs d;
     ReexportSharedLibHeaders := ReexportSharedLibHeaders d;
     ReexportStaticLibHeaders := ReexportStaticLibHeaders d;
     ObjFiles := ObjFiles d; GeneratedSources := GeneratedSources d;
     GeneratedHeaders := GeneratedHeaders d; Cflags := Cflags d;
     ReexportedCflags := ReexportedCflags d; CrtBegin := v;
     CrtEnd := CrtEnd d |}.
Definition set_CrtEnd (v : string) (d : Deps) : Deps :=
  {| SharedLibs := SharedLibs d; LateSharedLibs := LateSharedLibs d;
     StaticLibs := StaticLibs d; LateStaticLibs := LateStaticLibs d;
     WholeStaticLibs := WholeStaticLibs d;
     ReexportSharedLibHeaders := ReexportSharedLibHeaders d;
     ReexportStaticLibHeaders := ReexportStaticLibHeaders d;
     ObjFiles := ObjFiles d; GeneratedSources := GeneratedSources d;
     GeneratedHeaders := GeneratedHeaders d; Cflags := Cflags d;
     ReexportedCflags := ReexportedCflags d; CrtBegin := CrtBegin d;
     CrtEnd := v |}.

(** Assignments to one field of the other records. *)
Definition set_pSharedLibs (v : list Path) (d : PathDeps) : PathDeps :=
  {| pSharedLibs := v; pLateSharedLibs := pLateSharedLibs d;
     pStaticLibs := pStaticLibs d; pLateStaticLibs := pLateStaticLibs d;
     pWholeStaticLibs := pWholeStaticLibs d; pObjFiles := pObjFiles d;
     pWholeStaticLibObjFiles := pWholeStaticLibObjFiles d;
     pGeneratedSources := pGeneratedSources d;
     pGeneratedHeaders := pGeneratedHeaders d; pCflags := pCflags d;
     pReexportedCflags := pReexportedCflags d; pCrtBegin := pCrtBegin d;
     pCrtEnd := pCrtEnd d |}.
Definition set_pLateSharedLibs (v : list Path) (d : PathDeps) : PathDeps :=
  {| pSharedLibs := pSharedLibs d; pLateSharedLibs := v;
     pStaticLibs := pStaticLibs d; pLateStaticLibs := pLateStaticLibs d;
     pWholeStaticLibs := pWholeStaticLibs d; pObjFiles := pObjFiles d;
     pWholeStaticLibObjFiles := pWholeStaticLibObjFiles d;
     pGeneratedSources := pGeneratedSources d;
     pGeneratedHeaders := pGeneratedHeaders d; pCflags := pCflags d;
     pReexportedCflags := pReexportedCflags d; pCrtBegin := pCrtBegin d;
     pCrtEnd := pCrtEnd d |}.
Definition set_pStaticLibs (v : list Path) (d : PathDeps) : PathDeps :=
  {| pSharedLibs := pSharedLibs d; pLateSharedLibs := pLateSharedLibs d;
     pStaticLibs := v; pLateStaticLibs := pLateStaticLibs d;
     pWholeStaticLibs := pWholeStaticLibs d; pObjFiles := pObjFiles d;
     pWholeStaticLibObjFiles := pWholeStaticLibObjFiles d;
     pGeneratedSources := pGeneratedSources d;
     pGeneratedHeaders := pGeneratedHeaders d; pCflags := pCflags d;
     pReexportedCflags := pReexportedCflags d; pCrtBegin := pCrtBegin d;
     pCrtEnd := pCrtEnd d |}.
Definition set_pLateStaticLibs (v : list Path) (d : PathDeps) : PathDeps :=
  {| pSharedLibs := pSharedLibs d; pLateSharedLibs := pLateSharedLibs d;
     pStaticLibs := pStaticLibs d; pLateStaticLibs := v;
     pWholeStaticLibs := pWholeStaticLibs d; pObjFiles := pObjFiles d;
     pWholeStaticLibObjFiles := pWholeStaticLibObjFiles d;
     pGeneratedSources := pGeneratedSources d;
     pGeneratedHeaders := pGeneratedHeaders d; pCflags := pCflags d;
     pReexportedCflags := pReexportedCflags d; pCrtBegin := pCrtBegin d;
     pCrtEnd := pCrtEnd d |}.
Definition set_pWholeStaticLibs (v : list Path) (d : PathDeps) : PathDeps :=
  {| pSharedLibs := pSharedLibs d; pLateSharedLibs := pLateSharedLibs d;
     pStaticLibs := pStaticLibs d; pLateStaticLibs := pLateStaticLibs d;
     pWholeStaticLibs := v; pObjFiles := pObjFiles d;
     pWholeStaticLibObjFiles := pWholeStaticLibObjFiles d;
     pGeneratedSources := pGeneratedSources d;
     pGeneratedHeaders := pGeneratedHeaders d; pCflags := pCflags d;
     pReexportedCflags := pReexportedCflags d; pCrtBegin := pCrtBegin d;
     pCrtEnd := pCrtEnd d |}.
Definition set_pObjFiles (v : list Path) (d : PathDeps) : PathDeps :=
  {| pSharedLibs := pSharedLibs d; pLateSharedLibs := pLateSharedLibs d;
     pStaticLibs := pStaticLibs d; pLateStaticLibs := pLateStaticLibs d;
     pWholeStaticLibs := pWholeStaticLibs d; pObjFiles := v;
     pWholeStaticLibObjFiles := pWholeStaticLibObjFiles d;
     pGeneratedSources := pGeneratedSources d;
     pGeneratedHeaders := pGeneratedHeaders d; pCflags := pCflags d;
     pReexportedCflags := pReexportedCflags d; pCrtBegin := pCrtBegin d;
     pCrtEnd := pCrtEnd d |}.
Definition set_pWholeStaticLibObjFiles (v : list Path) (d : PathDeps) : PathDeps :=
  {| pSharedLibs := pSharedLibs d; pLateSharedLibs := pLateSharedLibs d;
     pStaticLibs := pStaticLibs d; pLateStaticLibs := pLateStaticLibs d;
     pWholeStaticLibs := pWholeStaticLibs d; pObjFiles := pObjFiles d;
     pWholeStaticLibObjFiles := v; pGeneratedSources := pGeneratedSources d;
     pGeneratedHeaders := pGeneratedHeaders d; pCflags := pCflags d;
     pReexportedCflags := pReexportedCflags d; pCrtBegin := pCrtBegin d;
     pCrtEnd := pCrtEnd d |}.
Definition set_pGeneratedSources (v : list Path) (d : PathDeps) : PathDeps :=
  {| pSharedLibs := pSharedLibs d; pLateSharedLibs := pLateSharedLibs d;
     pStaticLibs := pStaticLibs d; pLateStaticLibs := pLateStaticLibs d;
     pWholeStaticLibs := pWholeStaticLibs d; pObjFiles := pObjFiles d;
     pWholeStaticLibObjFiles := pWholeStaticLibObjFiles d;
     pGeneratedSources := v; pGeneratedHeaders := pGeneratedHeaders d;
     pCflags := pCflags d; pReexportedCflags := pReexportedCflags d;
     pCrtBegin := pCrtBegin d; pCrtEnd := pCrtEnd d |}.
Definition set_pGeneratedHeaders (v : list Path) (d : PathDeps) : PathDeps :=
  {| pSharedLibs := pSharedLibs d; pLateSharedLibs := pLateSharedLibs d;
     pStaticLibs := pStaticLibs d; pLateStaticLibs := pLateStaticLibs d;
     pWholeStaticLibs := pWholeStaticLibs d; pObjFiles := pObjFiles d;
     pWholeStaticLibObjFiles := pWholeStaticLibObjFiles d;
     pGeneratedSources := pGeneratedSources d; pGeneratedHeaders := v;
     pCflags := pCflags d; pReexportedCflags := pReexportedCflags d;
     pCrtBegin := pCrtBegin d; pCrtEnd := pCrtEnd d |}.
Definition set_pCflags (v : list string) (d : PathDeps) : PathDeps :=
  {| pSharedLibs := pSharedLibs d; pLateSharedLibs := pLateSharedLibs d;
     pStaticLibs := pStaticLibs d; pLateStaticLibs := pLateStaticLibs d;
     pWholeStaticLibs := pWholeStaticLibs d; pObjFiles := pObjFiles d;
     pWholeStaticLibObjFiles := pWholeStaticLibObjFiles d;
     pGeneratedSources := pGeneratedSources d;
     pGeneratedHeaders := pGeneratedHeaders d; pCflags := v;
     pReexportedCflags := pReexportedCflags d; pCrtBegin := pCrtBegin d;
     pCrtEnd := pCrtEnd d |}.
Definition set_pReexportedCflags (v : list string) (d : PathDeps) : PathDeps :=
  {| pSharedLibs := pSharedLibs d; pLateSharedLibs := pLateSharedLibs d;
     pStaticLibs := pStaticLibs d; pLateStaticLibs := pLateStaticLibs d;
     pWholeStaticLibs := pWholeStaticLibs d; pObjFiles := pObjFiles d;
     pWholeStaticLibObjFiles := pWholeStaticLibObjFiles d;
     pGeneratedSources := pGeneratedSources d;
     pGeneratedHeaders := pGeneratedHeaders d; pCflags := pCflags d;
     pReexportedCflags := v; pCrtBegin := pCrtBegin d; pCrtEnd := pCrtEnd d |}.
Definition set_pCrtBegin (v : option Path) (d : PathDeps) : PathDeps :=
  {| pSharedLibs := pSharedLibs d; pLateSharedLibs := pLateSharedLibs d;
     pStaticLibs := pStaticLibs d; pLateStaticLibs := pLateStaticLibs d;
     pWholeStaticLibs := pWholeStaticLibs d; pObjFiles := pObjFiles d;
     pWholeStaticLibObjFiles := pWholeStaticLibObjFiles d;
     pGeneratedSources := pGeneratedSources d;
     pGeneratedHeaders := pGeneratedHeaders d; pCflags := pCflags d;
     pReexportedCflags := pReexportedCflags d; pCrtBegin := v;
     pCrtEnd := pCrtEnd d |}.
Definition set_pCrtEnd (v : option Path) (d : PathDeps) : PathDeps :=
  {| pSharedLibs := pSharedLibs d; pLateSharedLibs := pLateSharedLibs d;
     pStaticLibs := pStaticLibs d; pLateStaticLibs := pLateStaticLibs d;
     pWholeStaticLibs := pWholeStaticLibs d; pObjFiles := pObjFiles d;
     pWholeStaticLibObjFiles := pWholeStaticLibObjFiles d;
     pGeneratedSources := pGeneratedSources d;
     pGeneratedHeaders := pGeneratedHeaders d; pCflags := pCflags d;
     pReexportedCflags := pReexportedCflags d; pCrtBegin := pCrtBegin d;
     pCrtEnd := v |}.
Definition set_AsFlags (v : list string) (f : Flags) : Flags :=
  {| GlobalFlags := GlobalFlags f; AsFlags := v; CFlags := CFlags f;
     ConlyFlags := ConlyFlags f; CppFlags := CppFlags f;
     YaccFlags := YaccFlags f; LdFlags := LdFlags f; libFlags := libFlags f;
     Nocrt := Nocrt f; Toolchain_ := Toolchain_ f; Clang := Clang f;
     RequiredInstructionSet := RequiredInstructionSet f;
     DynamicLinker := DynamicLinker f; CFlagsDeps := CFlagsDeps f |}.
Definition set_CFlags (v : list string) (f : Flags) : Flags :=
  {| GlobalFlags := GlobalFlags f; AsFlags := AsFlags f; CFlags := v;
     ConlyFlags := ConlyFlags f; CppFlags := CppFlags f;
     YaccFlags := YaccFlags f; LdFlags := LdFlags f; libFlags := libFlags f;
     Nocrt := Nocrt f; Toolchain_ := Toolchain_ f; Clang := Clang f;
     RequiredInstructionSet := RequiredInstructionSet f;
     DynamicLinker := DynamicLinker f; CFlagsDeps := CFlagsDeps f |}.
Definition set_ConlyFlags (v : list string) (f : Flags) : Flags :=
  {| GlobalFlags := GlobalFlags f; AsFlags := AsFlags f; CFlags := CFlags f;
     ConlyFlags := v; CppFlags := CppFlags f; YaccFlags := YaccFlags f;
     LdFlags := LdFlags f; libFlags := libFlags f; Nocrt := Nocrt f;
     Toolchain_ := Toolchain_ f; Clang := Clang f;
     RequiredInstructionSet := RequiredInstructionSet f;
     DynamicLinker := DynamicLinker f; CFlagsDeps := CFlagsDeps f |}.
Definition set_CppFlags (v : list string) (f : Flags) : Flags :=
  {| GlobalFlags := GlobalFlags f; AsFlags := AsFlags f; CFlags := CFlags f;
     ConlyFlags := ConlyFlags f; CppFlags := v; YaccFlags := YaccFlags f;
     LdFlags := LdFlags f; libFlags := libFlags f; Nocrt := Nocrt f;
     Toolchain_ := Toolchain_ f; Clang := Clang f;
     RequiredInstructionSet := RequiredInstructionSet f;
     DynamicLinker := DynamicLinker f; CFlagsDeps := CFlagsDeps f |}.
Definition set_LdFlags (v : list string) (f : Flags) : Flags :=
  {| GlobalFlags := GlobalFlags f; AsFlags := AsFlags f; CFlags := CFlags f;
     ConlyFlags := ConlyFlags f; CppFlags := CppFlags f;
     YaccFlags := YaccFlags f; LdFlags := v; libFlags := libFlags f;
     Nocrt := Nocrt f; Toolchain_ := Toolchain_ f; Clang := Clang f;
     RequiredInstructionSet := RequiredInstructionSet f;
     DynamicLinker := DynamicLinker f; CFlagsDeps := CFlagsDeps f |}.
Definition set_VariantIsStatic (v : bool) (l : baseLinker) : baseLinker :=
  {| blProperties := blProperties l; VariantIsShared := VariantIsShared l;
     VariantIsStatic := v; VariantIsStaticBinary := VariantIsStaticBinary l;
     RunPaths := RunPaths l |}.
Definition set_VariantIsStaticBinary (v : bool) (l : baseLinker) : baseLinker :=
  {| blProperties := blProperties l; VariantIsShared := VariantIsShared l;
     VariantIsStatic := VariantIsStatic l; VariantIsStaticBinary := v;
     RunPaths := RunPaths l |}.
Definition set_RunPaths (v : list string) (l : baseLinker) : baseLinker :=
  {| blProperties := blProperties l; VariantIsShared := VariantIsShared l;
     VariantIsStatic := VariantIsStatic l;
     VariantIsStaticBinary := VariantIsStaticBinary l; RunPaths := v |}.
Definition set_ll_baseLinker (v : baseLinker) (l : libraryLinker) : libraryLinker :=
  {| ll_baseLinker := v; exported_flags := exported_flags l;
     Export_include_dirs := Export_include_dirs l;
     ll_stripper := ll_stripper l; llProperties := llProperties l;
     BuildStatic := BuildStatic l; BuildShared := BuildShared l;
     wholeStaticMissingDeps := wholeStaticMissingDeps l;
     objFiles := objFiles l |}.
Definition set_exported_flags (v : list string) (l : libraryLinker) : libraryLinker :=
  {| ll_baseLinker := ll_baseLinker l; exported_flags := v;
     Export_include_dirs := Export_include_dirs l;
     ll_stripper := ll_stripper l; llProperties := llProperties l;
     BuildStatic := BuildStatic l; BuildShared := BuildShared l;
     wholeStaticMissingDeps := wholeStaticMissingDeps l;
     objFiles := objFiles l |}.
Definition set_wholeStaticMissingDeps (v : option (list string)) (l : libraryLinker) : libraryLinker :=
  {| ll_baseLinker := ll_baseLinker l; exported_flags := exported_flags l;
     Export_include_dirs := Export_include_dirs l;
     ll_stripper := ll_stripper l; llProperties := llProperties l;
     BuildStatic := BuildStatic l; BuildShared := BuildShared l;
     wholeStaticMissingDeps := v; objFiles := objFiles l |}.
Definition set_objFiles (v : list Path) (l : libraryLinker) : libraryLinker :=
  {| ll_baseLinker := ll_baseLinker l; exported_flags := exported_flags l;
     Export_include_dirs := Export_include_dirs l;
     ll_stripper := ll_stripper l; llProperties := llProperties l;
     BuildStatic := BuildStatic l; BuildShared := BuildShared l;
     wholeStaticMissingDeps := wholeStaticMissingDeps l; objFiles := v |}.
Definition set_bin_baseLinker (v : baseLinker) (b : binaryLinker) : binaryLinker :=
  {| bin_baseLinker := v; bin_stripper := bin_stripper b;
     binProperties := binProperties b; hostToolPath := hostToolPath b |}.
Definition set_t_binaryLinker (v : binaryLinker) (t : testLinker) : testLinker :=
  {| t_binaryLinker := v; tProperties := tProperties t |}.
Definition set_Srcs (v : list string) (p : BaseCompilerProperties) : BaseCompilerProperties :=
  {| Srcs := v; Exclude_srcs := Exclude_srcs p;
     Generated_sources := Generated_sources p;
     Generated_headers := Generated_headers p |}.
Definition set_lc_baseCompiler (v : baseCompiler) (c : libraryCompiler) : libraryCompiler :=
  {| lc_baseCompiler := v; lcProperties := lcProperties c;
     reuseObjFiles := reuseObjFiles c |}.
Definition set_AndroidMkSharedLibs (v : list string) (p : BaseProperties) : BaseProperties :=
  {| pClang := pClang p; Sdk_version := Sdk_version p;
     AndroidMkSharedLibs := v |}.
Definition set_Enabled (v : bool) (m : Module) : Module :=
  {| Enabled := v; Target_Os := Target_Os m;
     Target_ArchType := Target_ArchType m; Properties := Properties m;
     m_compiler := m_compiler m; m_linker := m_linker m; m_stl := m_stl m;
     m_sanitize := m_sanitize m; m_features := m_features m;
     outputFile := outputFile m |}.
Definition set_Properties (v : BaseProperties) (m : Module) : Module :=
  {| Enabled := Enabled m; Target_Os := Target_Os m;
     Target_ArchType := Target_ArchType m; Properties := v;
     m_compiler := m_compiler m; m_linker := m_linker m; m_stl := m_stl m;
     m_sanitize := m_sanitize m; m_features := m_features m;
     outputFile := outputFile m |}.
Definition set_m_compiler (v : option compiler) (m : Module) : Module :=
  {| Enabled := Enabled m; Target_Os := Target_Os m;
     Target_ArchType := Target_ArchType m; Properties := Properties m;
     m_compiler := v; m_linker := m_linker m; m_stl := m_stl m;
     m_sanitize := m_sanitize m; m_features := m_features m;
     outputFile := outputFile m |}.
Definition set_m_linker (v : option linker) (m : Module) : Module :=
  {| Enabled := Enabled m; Target_Os := Target_Os m;
     Target_ArchType := Target_ArchType m; Properties := Properties m;
     m_compiler := m_compiler m; m_linker := v; m_stl := m_stl m;
     m_sanitize := m_sanitize m; m_features := m_features m;
     outputFile := outputFile m |}.
Definition set_node_module (v : BlueprintModule) (n : Node) : Node :=
  {| node_name := node_name n; node_module := v |}.

(** ** moduleContextImpl *)

Definition sdk (ctx : BaseModuleContext) : bool :=
  if Device ctx then bool_decide (Sdk_version (Properties (mod_ ctx)) ≠ "")
  else false.

Definition sdkVersion (ctx : BaseModuleContext) : string :=
  if Device ctx then Sdk_version (Properties (mod_ ctx)) else "".

Definition selectedStl (ctx : BaseModuleContext) : string :=
  match m_stl (mod_ ctx) with
  | Some stl => SelectedStl stl
  | None => ""
  end.

(** ** Slices of strings *)

(** [lastUniqueElements] works in place on the backing array of its argument.
    The array is [arr : list string]; [list[k]] is [arr !! k] and the assignment
    [list[k] = v] is [<[k:=v]> arr].  Go panics on an index out of range,
    which is [None] here.  Go's loop counters are signed: the counters below
    hold [j+1] and [i+1], so that the value [-1] of [j] or [i] is [0]. *)

(** The inner loop, [for j := i - 1; j >= totalSkip; j--], entered with
    [j + 1 = jp1].  It returns the final [skip] and the array. *)
Fixpoint lastUniqueElements_inner (jp1 totalSkip i skip : nat) (arr : list string)
  : option (nat * list string) :=
  match jp1 with
  | 0 => Some (skip, arr)
  | S j =>
      if decide (j < totalSkip) then Some (skip, arr)
      else
        li ← arr !! i;
        lj ← arr !! j;
        if decide (li = lj) then
          lastUniqueElements_inner j totalSkip i (S skip) arr
        else if decide (j + skip < length arr) then
          lastUniqueElements_inner j totalSkip i skip (<[j + skip := lj]> arr)
        else None
  end.

(** The outer loop, [for i := len(list) - 1; i >= totalSkip; i--], entered
    with [i + 1 = ip1].  It returns the final [totalSkip] and the array. *)
Fixpoint lastUniqueElements_outer (ip1 totalSkip : nat) (arr : list string)
  : option (nat * list string) :=
  match ip1 with
  | 0 => Some (totalSkip, arr)
  | S i =>
      if decide (i < totalSkip) then Some (totalSkip, arr)
      else
        '(skip, arr') ← lastUniqueElements_inner i totalSkip i 0 arr;
        lastUniqueElements_outer i (totalSkip + skip) arr'
  end.

(** [lastUniqueElements] returns the subslice [list[totalSkip:]]. *)
Definition lastUniqueElements (arr : list string) : option (list string) :=
  '(totalSkip, arr') ← lastUniqueElements_outer (length arr) 0 arr;
  Some (drop totalSkip arr').

(** The list the documentation of [lastUniqueElements] describes: all unique
    elements, keeping the last copy of each.  An element is kept exactly
    when it does not occur again later in the list. *)
Fixpoint lastUnique (l : list string) : list string :=
  match l with
  | [] => []
  | x :: r => if decide (x ∈ r) then lastUnique r else x :: lastUnique r
  end.

(** ** The dependency classifier: [deps] of the compilers and linkers *)

Definition baseCompiler_deps (compiler : baseCompiler) (ctx : BaseModuleContext)
    (deps : Deps) : Deps :=
  let deps := set_GeneratedSources
    (GeneratedSources deps ++ Generated_sources (bcProperties compiler)) deps in
  let deps := set_GeneratedHeaders
    (GeneratedHeaders deps ++ Generated_headers (bcProperties compiler)) deps in
  deps.

Definition static (linker : baseLinker) : bool := VariantIsStatic linker.

Definition staticBinary (linker : baseLinker) : bool := VariantIsStaticBinary linker.

Definition baseLinker_deps (linker : baseLinker) (ctx : BaseModuleContext)
    (deps : Deps) : Deps :=
  let props := blProperties linker in
  let deps := set_WholeStaticLibs (WholeStaticLibs deps ++ Whole_static_libs props) deps in
  let deps := set_StaticLibs (StaticLibs deps ++ Static_libs props) deps in
  let deps := set_SharedLibs (SharedLibs deps ++ Shared_libs props) deps in
  let deps := set_ReexportStaticLibHeaders
    (ReexportStaticLibHeaders deps ++ Export_static_lib_headers props) deps in
  let deps := set_ReexportSharedLibHeaders
    (ReexportSharedLibHeaders deps ++ Export_shared_lib_headers props) deps in
  let deps :=
    if negb (sdk ctx) && bool_decide (ModuleName ctx ≠ "libcompiler_rt-extras")
    then set_StaticLibs (StaticLibs deps ++ ["libcompiler_rt-extras"]) deps
    else deps in
  if Device ctx then
    (* libgcc and libatomic have to be last on the command line *)
    let deps := set_LateStaticLibs (LateStaticLibs deps ++ ["libatomic"]) deps in
    let deps :=
      if negb (Bool (No_libgcc props))
      then set_LateStaticLibs (LateStaticLibs deps ++ ["libgcc"]) deps
      else deps in
    let deps :=
      if negb (static linker) then
        match System_shared_libs props with
        | Some libs => set_LateSharedLibs (LateSharedLibs deps ++ libs) deps
        | None =>
            if negb (sdk ctx)
            then set_LateSharedLibs (LateSharedLibs deps ++ ["libc"; "libm"]) deps
            else deps
        end
      else deps in
    let deps :=
      if sdk ctx then
        let version := sdkVersion ctx in
        set_SharedLibs
          (SharedLibs deps ++ ["ndk_libc." +:+ version; "ndk_libm." +:+ version]) deps
      else deps in
    deps
  else deps.

Definition libraryLinker_deps (library : libraryLinker) (ctx : BaseModuleContext)
    (deps : Deps) : Deps :=
  let deps := baseLinker_deps (ll_baseLinker library) ctx deps in
  if static (ll_baseLinker library) then
    let p := lStatic (llProperties library) in
    let deps := set_WholeStaticLibs (WholeStaticLibs deps ++ v_Whole_static_libs p) deps in
    let deps := set_StaticLibs (StaticLibs deps ++ v_Static_libs p) deps in
    let deps := set_SharedLibs (SharedLibs deps ++ v_Shared_libs p) deps in
    deps
  else
    let deps :=
      if Device ctx && negb (Bool (lNocrt (llProperties library))) then
        if negb (sdk ctx) then
          set_CrtEnd "crtend_so" (set_CrtBegin "crtbegin_so" deps)
        else
          set_CrtEnd ("ndk_crtend_so." +:+ sdkVersion ctx)
            (set_CrtBegin ("ndk_crtbegin_so." +:+ sdkVersion ctx) deps)
      else deps in
    let p := lShared (llProperties library) in
    let deps := set_WholeStaticLibs (WholeStaticLibs deps ++ v_Whole_static_libs p) deps in
    let deps := set_StaticLibs (StaticLibs deps ++ v_Static_libs p) deps in
    let deps := set_SharedLibs (SharedLibs deps ++ v_Shared_libs p) deps in
    deps.

Definition objectLinker_deps (object : objectLinker) (ctx : BaseModuleContext)
    (deps : Deps) : Deps :=
  set_ObjFiles (ObjFiles deps ++ Objs (oProperties object)) deps.

Definition binaryLinker_buildStatic (binary : binaryLinker) : bool :=
  staticBinary (bin_baseLinker binary).

Definition binaryLinker_buildShared (binary : binaryLinker) : bool :=
  negb (staticBinary (bin_baseLinker binary)).

Definition newline : string := String "010"%char "".

Definition binaryLinker_deps (binary : binaryLinker) (ctx : BaseModuleContext)
    (deps : Deps) : M Deps :=
  let deps := baseLinker_deps (bin_baseLinker binary) ctx deps in
  let deps :=
    if Device ctx then
      let deps :=
        if negb (sdk ctx) then
          let deps :=
            if binaryLinker_buildStatic binary
            then set_CrtBegin "crtbegin_static" deps
            else set_CrtBegin "crtbegin_dynamic" deps in
          set_CrtEnd "crtend_android" deps
        else
          let deps :=
            if binaryLinker_buildStatic binary
            then set_CrtBegin ("ndk_crtbegin_static." +:+ sdkVersion ctx) deps
            else set_CrtBegin ("ndk_crtbegin_dynamic." +:+ sdkVersion ctx) deps in
          set_CrtEnd ("ndk_crtend_android." +:+ sdkVersion ctx) deps in
      if binaryLinker_buildStatic binary then
        let deps :=
          if inList "libc++_static" (StaticLibs deps)
          then set_StaticLibs (StaticLibs deps ++ ["libm"; "libc"; "libdl"]) deps
          else deps in
        (* static libraries libcompiler_rt, libc and libc_nomalloc need to be
           linked with --start-group/--end-group along with libgcc.  If they
           are in deps.StaticLibs, move them to the beginning of
           deps.LateStaticLibs *)
        let '(staticLibs, groupLibs) :=
          filterList (StaticLibs deps) ["libc"; "libc_nomalloc"; "libcompiler_rt"] in
        let deps := set_StaticLibs staticLibs deps in
        set_LateStaticLibs (groupLibs ++ LateStaticLibs deps) deps
      else deps
    else deps in
  (if binaryLinker_buildShared binary && inList "libc" (StaticLibs deps) then
     ModuleErrorf
       ("statically linking libc to dynamic executable, please remove libc"
        +:+ newline +:+ "from static libs or set static_executable: true") []
   else mret ()) ;;
  mret deps.

Definition testLinker_deps (test : testLinker) (ctx : BaseModuleContext)
    (deps : Deps) : M Deps :=
  let deps :=
    if Gtest (tProperties test) then
      if sdk ctx && Device ctx then
        if bool_decide (selectedStl ctx = "ndk_libc++_shared")
           || bool_decide (selectedStl ctx = "ndk_libc++_static")
        then set_StaticLibs
               (StaticLibs deps ++ ["libgtest_main_ndk_libcxx"; "libgtest_ndk_libcxx"]) deps
        else if bool_decide (selectedStl ctx = "ndk_libgnustl_static")
        then set_StaticLibs
               (StaticLibs deps ++ ["libgtest_main_ndk_gnustl"; "libgtest_ndk_gnustl"]) deps
        else set_StaticLibs
               (StaticLibs deps ++ ["libgtest_main_ndk"; "libgtest_ndk"]) deps
      else set_StaticLibs (StaticLibs deps ++ ["libgtest_main"; "libgtest"]) deps
    else deps in
  binaryLinker_deps (t_binaryLinker test) ctx deps.

Definition benchmarkLinker_deps (benchmark : binaryLinker) (ctx : BaseModuleContext)
    (deps : Deps) : M Deps :=
  deps ← binaryLinker_deps benchmark ctx deps;
  mret (set_StaticLibs (StaticLibs deps ++ ["libbenchmark"; "libbase"]) deps).

(** [c.compiler.deps(ctx, deps)]: [libraryCompiler] inherits the method of
    the [baseCompiler] it embeds. *)
Definition compiler_deps (c : compiler) (ctx : BaseModuleContext) (deps : Deps)
    : M Deps :=
  match c with
  | BaseCompiler b => mret (baseCompiler_deps b ctx deps)
  | LibraryCompiler l => mret (baseCompiler_deps (lc_baseCompiler l) ctx deps)
  end.

(** [c.linker.deps(ctx, deps)]: toolchain libraries and NDK prebuilts can't
    have any dependencies. *)
Definition linker_deps (l : linker) (ctx : BaseModuleContext) (deps : Deps)
    : M Deps :=
  match l with
  | LibraryLinker library => mret (libraryLinker_deps library ctx deps)
  | BinaryLinker binary => binaryLinker_deps binary ctx deps
  | TestLinker test => testLinker_deps test ctx deps
  | BenchmarkLinker benchmark => benchmarkLinker_deps benchmark ctx deps
  | ObjectLinker object => mret (objectLinker_deps object ctx deps)
  | ToolchainLibraryLinker _ => mret deps
  | NdkPrebuiltObjectLinker _ => mret deps
  | NdkPrebuiltLibraryLinker _ => mret deps
  | NdkPrebuiltStlLinker _ => mret deps
  end.

(** [if x != nil { deps = x.deps(ctx, deps) }] *)
Definition optional_stage {X} (x : option X) (f : X → Deps → M Deps) (deps : Deps)
    : M Deps :=
  match x with
  | Some x => f x deps
  | None => mret deps
  end.

(** [for _, feature := range c.features { deps = feature.deps(ctx, deps) }] *)
Fixpoint features_deps (fs : list feature) (ctx : BaseModuleContext) (deps : Deps)
    : M Deps :=
  match fs with
  | [] => mret deps
  | f :: fs =>
      deps ← run_feature (feature_deps f ctx deps);
      features_deps fs ctx deps
  end.

(** The first part of [Module.deps]: the stages, run on [Deps{}]. *)
Definition Module_deps_stages (c : Module) (ctx : BaseModuleContext) : M Deps :=
  let deps := EmptyDeps in
  deps ← optional_stage (m_compiler c) (λ x, compiler_deps x ctx) deps;
  deps ← optional_stage (m_linker c) (λ x, linker_deps x ctx) deps;
  deps ← optional_stage (m_stl c)
           (λ x d, run_feature (feature_deps (stl_feature x) ctx d)) deps;
  deps ← optional_stage (m_sanitize c) (λ x d, run_feature (feature_deps x ctx d)) deps;
  features_deps (m_features c) ctx deps.

(** A call of [lastUniqueElements]; an index out of range is a run-time
    panic. *)
Definition call_lastUniqueElements (l : list string) : M (list string) :=
  match lastUniqueElements l with
  | Some r => mret r
  | None => panic "runtime error: index out of range" []
  end.

Definition Module_deps (c : Module) (ctx : BaseModuleContext) : M Deps :=
  deps ← Module_deps_stages c ctx;
  l ← call_lastUniqueElements (WholeStaticLibs deps);
  let deps := set_WholeStaticLibs l deps in
  l ← call_lastUniqueElements (StaticLibs deps);
  let deps := set_StaticLibs l deps in
  l ← call_lastUniqueElements (LateStaticLibs deps);
  let deps := set_LateStaticLibs l deps in
  l ← call_lastUniqueElements (SharedLibs deps);
  let deps := set_SharedLibs l deps in
  l ← call_lastUniqueElements (LateSharedLibs deps);
  let deps := set_LateSharedLibs l deps in
  forRange (ReexportSharedLibHeaders deps) (λ lib,
    if negb (inList lib (SharedLibs deps)) then
      PropertyErrorf "export_shared_lib_headers"
        "Shared library not in shared_libs: '%s'" [lib]
    else mret ()) ;;
  forRange (ReexportStaticLibHeaders deps) (λ lib,
    if negb (inList lib (StaticLibs deps)) then
      PropertyErrorf "export_static_lib_headers"
        "Static library not in static_libs: '%s'" [lib]
    else mret ()) ;;
  mret deps.

(** ** [begin] and the [deps] mutator *)

Definition baseLinker_begin (linker : baseLinker) (ctx : BaseModuleContext)
    : baseLinker :=
  if Is64Bit (ctx_toolchain ctx)
  then set_RunPaths ["../lib64"; "lib64"] linker
  else set_RunPaths ["../lib"; "lib"] linker.

(** [libraryLinker.begin]; the second component tells whether
    [ctx.module().Disable()] was called. *)
Definition libraryLinker_begin (library : libraryLinker) (ctx : BaseModuleContext)
    : libraryLinker * bool :=
  let library := set_ll_baseLinker (baseLinker_begin (ll_baseLinker library) ctx) library in
  if static (ll_baseLinker library) then
    (library,
     match v_Enabled (lStatic (llProperties library)) with
     | Some b => negb b
     | None => false
     end)
  else
    (library,
     match v_Enabled (lShared (llProperties library)) with
     | Some b => negb b
     | None => false
     end).

Definition binaryLinker_begin (binary : binaryLinker) (ctx : BaseModuleContext)
    : binaryLinker :=
  let binary := set_bin_baseLinker (baseLinker_begin (bin_baseLinker binary) ctx) binary in
  let static := Bool (Static_executable (binProperties binary)) in
  let static :=
    if Host ctx then
      if bool_decide (Os ctx = Linux) then
        if bool_decide (Static_executable (binProperties binary) = None)
           && Bool (HostStaticBinaries ctx)
        then true else static
      else
        (* Static executables are not supported on Darwin or Windows *)
        false
    else static in
  if static then
    set_bin_baseLinker
      (set_VariantIsStaticBinary true
         (set_VariantIsStatic true (bin_baseLinker binary))) binary
  else binary.

Definition testLinker_begin (test : testLinker) (ctx : BaseModuleContext)
    : testLinker :=
  let binary := binaryLinker_begin (t_binaryLinker test) ctx in
  let runpath := "../../lib" in
  let runpath := if Is64Bit (ctx_toolchain ctx) then runpath +:+ "64" else runpath in
  set_t_binaryLinker
    (set_bin_baseLinker
       (set_RunPaths (runpath :: RunPaths (bin_baseLinker binary))
          (bin_baseLinker binary)) binary) test.

(** [c.linker.begin(ctx)], by the type of the linker. *)
Definition linker_begin (l : linker) (ctx : BaseModuleContext) : linker * bool :=
  match l with
  | LibraryLinker library =>
      let '(library, disable) := libraryLinker_begin library ctx in
      (LibraryLinker library, disable)
  | NdkPrebuiltLibraryLinker library =>
      let '(library, disable) := libraryLinker_begin library ctx in
      (NdkPrebuiltLibraryLinker library, disable)
  | NdkPrebuiltStlLinker library =>
      let '(library, disable) := libraryLinker_begin library ctx in
      (NdkPrebuiltStlLinker library, disable)
  | BinaryLinker binary => (BinaryLinker (binaryLinker_begin binary ctx), false)
  | BenchmarkLinker binary => (BenchmarkLinker (binaryLinker_begin binary ctx), false)
  | TestLinker test => (TestLinker (testLinker_begin test ctx), false)
  | ToolchainLibraryLinker base => (ToolchainLibraryLinker (baseLinker_begin base ctx), false)
  | ObjectLinker object => (ObjectLinker object, false)
  | NdkPrebuiltObjectLinker object => (NdkPrebuiltObjectLinker object, false)
  end.

(** [Module.begin]: [baseCompiler.begin] does nothing; the [begin] of the
    stages that are not part of the source only prepares their own state,
    which the [stl] and [feature] records hold as it is afterwards. *)
Definition Module_begin (c : Module) (actx : BaseContext) : Module :=
  match m_linker c with
  | Some l =>
      let '(l, disable) := linker_begin l {| actx := actx; mod_ := c |} in
      let c := set_m_linker (Some l) c in
      if disable then set_Enabled false c else c
  | None => c
  end.

(** The calls [depsMutator] makes on the mutator context. *)
Inductive MutatorCall :=
| AddVariationDependencies (variations : list (string * string))
    (tag : dependencyTag) (names : list string)
| AddDependency (tag : dependencyTag) (names : list string).

Definition Module_depsMutator (c : Module) (actx : BaseContext)
    : M (Module * list MutatorCall) :=
  let c := Module_begin c actx in
  let ctx := {| actx := actx; mod_ := c |} in
  deps ← Module_deps c ctx;
  let c := set_Properties (set_AndroidMkSharedLibs (SharedLibs deps) (Properties c)) c in
  mret (c,
    [AddVariationDependencies [("link", "static")] wholeStaticDepTag (WholeStaticLibs deps)]
    ++ map (λ lib,
         let depTag :=
           if inList lib (ReexportStaticLibHeaders deps)
           then staticExportDepTag else staticDepTag in
         AddVariationDependencies [("link", "static")] depTag (StaticLibs deps))
       (StaticLibs deps)
    ++ [AddVariationDependencies [("link", "static")] lateStaticDepTag (LateStaticLibs deps)]
    ++ map (λ lib,
         let depTag :=
           if inList lib (ReexportSharedLibHeaders deps)
           then sharedExportDepTag else sharedDepTag in
         AddVariationDependencies [("link", "shared")] depTag (SharedLibs deps))
       (SharedLibs deps)
    ++ [AddVariationDependencies [("link", "shared")] lateSharedDepTag (LateSharedLibs deps)]
    ++ [AddDependency genSourceDepTag (GeneratedSources deps);
        AddDependency genHeaderDepTag (GeneratedHeaders deps);
        AddDependency objDepTag (ObjFiles deps)]
    ++ (if bool_decide (CrtBegin deps ≠ "")
        then [AddDependency crtBeginDepTag [CrtBegin deps]] else [])
    ++ (if bool_decide (CrtEnd deps ≠ "")
        then [AddDependency crtEndDepTag [CrtEnd deps]] else [])).

(** ** The dependency resolver: [depsToPaths] *)

Definition EmptyPathDeps : PathDeps :=
  {| pSharedLibs := []; pLateSharedLibs := []; pStaticLibs := [];
     pLateStaticLibs := []; pWholeStaticLibs := []; pObjFiles := [];
     pWholeStaticLibObjFiles := []; pGeneratedSources := [];
     pGeneratedHeaders := []; pCflags := []; pReexportedCflags := [];
     pCrtBegin := None; pCrtEnd := None |}.

(** Modelled from the spec: [includeDirsToFlags] is not part of the source;
    it turns include directories into [-I] flags, joined by spaces. *)
Definition includeDirsToFlags (dirs : list Path) : string :=
  Join (map (λ d, "-I" +:+ d) dirs) " ".

(** Whether a module can link to another module, taking into account NDK
    linking. *)
Definition linkTypeOk (from to : Module) : bool :=
  if bool_decide (Target_Os from ≠ Android) then
    (* Host code is not restricted *)
    true
  else if bool_decide (Sdk_version (Properties from) = "") then
    (* Platform code can link to anything *)
    true
  else
    match m_linker to with
    | Some (ToolchainLibraryLinker _) => true   (* These are always allowed *)
    | Some (NdkPrebuiltLibraryLinker _) => true (* allowed, but don't set sdk_version *)
    | Some (NdkPrebuiltStlLinker _) => true     (* allowed, but don't set sdk_version *)
    | _ => bool_decide (Sdk_version (Properties to) ≠ "")
    end.

(** [cc.linker.(exportedFlagsProducer)]: the linkers that embed a
    [flagExporter], with [exportedFlags()]. *)
Definition exportedFlagsProducer (l : option linker) : option (list string) :=
  match l with
  | Some (LibraryLinker l) => Some (exported_flags l)
  | Some (NdkPrebuiltLibraryLinker l) => Some (exported_flags l)
  | Some (NdkPrebuiltStlLinker l) => Some (exported_flags l)
  | _ => None
  end.

(** The slice [depPtr] points to after the [switch]. *)
Inductive DepPtr :=
| PtrSharedLibs | PtrLateSharedLibs | PtrStaticLibs | PtrLateStaticLibs
| PtrWholeStaticLibs | PtrObjFiles.

(** The append of [cc.outputFile.Path()] to the slice [depPtr] points to,
    when [depPtr != nil]. *)
Definition append_depPtr (depPtr : option DepPtr) (path : Path) (depPaths : PathDeps)
    : PathDeps :=
  match depPtr with
  | None => depPaths
  | Some PtrSharedLibs => set_pSharedLibs (pSharedLibs depPaths ++ [path]) depPaths
  | Some PtrLateSharedLibs => set_pLateSharedLibs (pLateSharedLibs depPaths ++ [path]) depPaths
  | Some PtrStaticLibs => set_pStaticLibs (pStaticLibs depPaths ++ [path]) depPaths
  | Some PtrLateStaticLibs => set_pLateStaticLibs (pLateStaticLibs depPaths ++ [path]) depPaths
  | Some PtrWholeStaticLibs => set_pWholeStaticLibs (pWholeStaticLibs depPaths ++ [path]) depPaths
  | Some PtrObjFiles => set_pObjFiles (pObjFiles depPaths ++ [path]) depPaths
  end.

Definition getNode (id : nat) : M (option Node) :=
  λ st, Ok (graph st !! id, st).

Definition setNode (id : nat) (n : Node) : M unit :=
  λ st, Ok ((), set_graph (<[id := n]> (graph st)) st).

(** [for i := range missingDeps { missingDeps[i] += postfix }]: the slice is
    the one the library holds, the loop rewrites its elements. *)
Definition add_postfix (postfix : string) (missingDeps : list string) : list string :=
  map (λ dep, dep +:+ postfix) missingDeps.

(** The visit of a dependency that is not a [*cc.Module]. *)
Definition visit_non_cc (name : string) (tag : DependencyTag)
    (genRule : option (list Path * Path)) (depPaths : PathDeps) : M PathDeps :=
  if decide (tag = DefaultsDepTag) then mret depPaths
  else if decide (tag = CcDepTag genSourceDepTag) then
    match genRule with
    | Some (files, _) =>
        mret (set_pGeneratedSources (pGeneratedSources depPaths ++ files) depPaths)
    | None =>
        ModuleErrorf "module %q is not a gensrcs or genrule" [name] ;; mret depPaths
    end
  else if decide (tag = CcDepTag genHeaderDepTag) then
    match genRule with
    | Some (files, dir) =>
        let depPaths := set_pGeneratedHeaders (pGeneratedHeaders depPaths ++ files) depPaths in
        mret (set_pCflags (pCflags depPaths ++ [includeDirsToFlags [dir]]) depPaths)
    | None =>
        ModuleErrorf "module %q is not a genrule" [name] ;; mret depPaths
    end
  else
    ModuleErrorf "depends on non-cc module %q" [name] ;; mret depPaths.

(** The [switch tag] of the visit and the append that follows it, for a
    dependency [cc] held by node [id], with output file [out]. *)
Definition visit_switch (id : nat) (node : Node) (cc : Module) (out : Path)
    (tag : DependencyTag) (depPaths : PathDeps) : M PathDeps :=
  let name := node_name node in
  if decide (tag = CcDepTag sharedDepTag ∨ tag = CcDepTag sharedExportDepTag) then
    mret (append_depPtr (Some PtrSharedLibs) out depPaths)
  else if decide (tag = CcDepTag lateSharedDepTag) then
    mret (append_depPtr (Some PtrLateSharedLibs) out depPaths)
  else if decide (tag = CcDepTag staticDepTag ∨ tag = CcDepTag staticExportDepTag) then
    mret (append_depPtr (Some PtrStaticLibs) out depPaths)
  else if decide (tag = CcDepTag lateStaticDepTag) then
    mret (append_depPtr (Some PtrLateStaticLibs) out depPaths)
  else if decide (tag = CcDepTag wholeStaticDepTag) then
    match m_linker cc with
    | Some (LibraryLinker staticLib) =>
        if negb (static (ll_baseLinker staticLib)) then
          ModuleErrorf "module %q not a static library" [name] ;; mret depPaths
        else
          match wholeStaticMissingDeps staticLib with
          | Some missingDeps =>
              let postfix := " (required by " +:+ name +:+ ")" in
              let missingDeps := add_postfix postfix missingDeps in
              setNode id
                (set_node_module
                   (CcModule
                      (set_m_linker
                         (Some (LibraryLinker
                                  (set_wholeStaticMissingDeps (Some missingDeps) staticLib)))
                         cc))
                   node) ;;
              AddMissingDependencies missingDeps
          | None => mret ()
          end ;;
          let depPaths :=
            set_pWholeStaticLibObjFiles
              (pWholeStaticLibObjFiles depPaths ++ objFiles staticLib) depPaths in
          mret (append_depPtr (Some PtrWholeStaticLibs) out depPaths)
    | _ =>
        ModuleErrorf "module %q not a static library" [name] ;; mret depPaths
    end
  else if decide (tag = CcDepTag objDepTag) then
    mret (append_depPtr (Some PtrObjFiles) out depPaths)
  else if decide (tag = CcDepTag crtBeginDepTag) then
    mret (append_depPtr None out (set_pCrtBegin (outputFile cc) depPaths))
  else if decide (tag = CcDepTag crtEndDepTag) then
    mret (append_depPtr None out (set_pCrtEnd (outputFile cc) depPaths))
  else
    panic "unknown dependency tag: %s" [].

(** The function [depsToPaths] hands to [ctx.VisitDirectDeps], for module
    [c] in context [ctx], at the dependency [d]. *)
Definition visit (c : Module) (ctx : BaseContext) (d : DirectDep)
    (depPaths : PathDeps) : M PathDeps :=
  node ← getNode (dep_node d);
  match node with
  | None => mret depPaths
  | Some node =>
      let name := node_name node in
      let tag := dep_tag d in
      match node_module node with
      | NonAndroidModule =>
          ModuleErrorf "module %q not an android module" [name] ;; mret depPaths
      | SourceFileGenerator files dir =>
          visit_non_cc name tag (Some (files, dir)) depPaths
      | OtherAndroidModule =>
          visit_non_cc name tag None depPaths
      | CcModule cc =>
          if negb (Enabled cc) then
            ModuleErrorf "depends on disabled module %q" [name] ;; mret depPaths
          else if bool_decide (Target_Os cc ≠ Os ctx) then
            ModuleErrorf "OS mismatch between %q and %q" [ModuleName ctx; name] ;;
            mret depPaths
          else if bool_decide (Target_ArchType cc ≠ ArchType ctx) then
            ModuleErrorf "Arch mismatch between %q and %q" [ModuleName ctx; name] ;;
            mret depPaths
          else
            match outputFile cc with
            | None =>
                ModuleErrorf "module %q missing output file" [name] ;; mret depPaths
            | Some out =>
                if decide (tag = CcDepTag reuseObjTag) then
                  match m_compiler cc with
                  | Some (LibraryCompiler lc) =>
                      mret (set_pObjFiles (pObjFiles depPaths ++ reuseObjFiles lc) depPaths)
                  | _ =>
                      panic "interface conversion: compiler is not *cc.libraryCompiler" []
                  end
                else
                  depPaths ←
                    match tag with
                    | CcDepTag t =>
                        if library t then
                          let depPaths :=
                            match exportedFlagsProducer (m_linker cc) with
                            | Some cflags =>
                                let depPaths :=
                                  set_pCflags (pCflags depPaths ++ cflags) depPaths in
                                if reexportFlags t then
                                  set_pReexportedCflags
                                    (pReexportedCflags depPaths ++ cflags) depPaths
                                else depPaths
                            | None => depPaths
                            end in
                          (if negb (linkTypeOk c cc) then
                             ModuleErrorf "depends on non-NDK-built library %q" [name]
                           else mret ()) ;;
                          mret depPaths
                        else mret depPaths
                    | _ => mret depPaths
                    end;
                  visit_switch (dep_node d) node cc out tag depPaths
            end
      end
  end.

(** [ctx.VisitDirectDeps(visit)] over the direct dependencies of the module,
    in their order. *)
Fixpoint VisitDirectDeps (directDeps : list DirectDep)
    (f : DirectDep → PathDeps → M PathDeps) (depPaths : PathDeps) : M PathDeps :=
  match directDeps with
  | [] => mret depPaths
  | d :: ds => depPaths ← f d depPaths; VisitDirectDeps ds f depPaths
  end.

(** Convert dependencies to paths.  Returns a [PathDeps] containing paths. *)
Definition Module_depsToPaths (c : Module) (ctx : BaseContext)
    (directDeps : list DirectDep) : M PathDeps :=
  VisitDirectDeps directDeps (visit c ctx) EmptyPathDeps.

(** ** The link planner: libraries *)

(** Modelled from the spec: the path constructors of the [android] package
    and the two extensions are not part of the source; a path is the
    directory of the module followed by its components. *)
Definition PathForModuleOut (ctx : BaseContext) (parts : list string) : Path :=
  Join (ModuleOutDir ctx :: parts) "/".

Definition PathForModuleSrc (ctx : BaseContext) (parts : list string) : Path :=
  Join (ModuleSrcDir ctx :: parts) "/".

Definition OptionalPathForModuleSrc (ctx : BaseContext) (p : option string)
    : option Path :=
  match p with
  | Some p => Some (PathForModuleSrc ctx [p])
  | None => None
  end.

Definition staticLibraryExtension : string := ".a".

(** Modelled from the spec: [android.JoinWithPrefix] is not part of the
    source; it puts the prefix before every entry and joins with spaces. *)
Definition JoinWithPrefix (strs : list string) (prefix : string) : string :=
  Join (map (λ x, prefix +:+ x) strs) " ".

Definition needsStrip (stripper : StripProperties) (ctx : BaseContext) : bool :=
  negb (EmbeddedInMake ctx) && negb (Strip_None stripper).

Definition strip (stripper : StripProperties) (ctx : BaseContext)
    (inputFile outputFile : Path) (flags : Flags) : M unit :=
  if isDarwin ctx then emit (TransformDarwinStrip inputFile outputFile)
  else
    (* TODO(ccross): don't add gnu debuglink for user builds *)
    emit (TransformStrip inputFile outputFile flags (Strip_Keep_symbols stripper) true).

Definition libraryLinker_linkStatic (library : libraryLinker) (ctx : BaseContext)
    (flags : Flags) (deps : PathDeps) (objFiles_ : list Path)
    : M (libraryLinker * Path) :=
  let library := set_objFiles ([] ++ pWholeStaticLibObjFiles deps) library in
  let library := set_objFiles (objFiles library ++ objFiles_) library in
  let outputFile :=
    PathForModuleOut ctx
      [ModuleName ctx +:+ VariantName (llProperties library) +:+ staticLibraryExtension] in
  (if isDarwin ctx
   then emit (TransformDarwinObjToStaticLib (objFiles library) flags outputFile)
   else emit (TransformObjToStaticLib (objFiles library) flags outputFile)) ;;
  missing ← GetMissingDependencies;
  let library := set_wholeStaticMissingDeps missing library in
  emit (CheckbuildFile outputFile) ;;
  mret (library, outputFile).

Definition libraryLinker_linkShared (library : libraryLinker) (ctx : BaseContext)
    (flags : Flags) (deps : PathDeps) (objFiles_ : list Path) : M Path :=
  let linkerDeps : list Path := [] in
  let props := llProperties library in
  let versionScript := OptionalPathForModuleSrc ctx (Version_script props) in
  let unexportedSymbols := OptionalPathForModuleSrc ctx (Unexported_symbols_list props) in
  let forceNotWeakSymbols :=
    OptionalPathForModuleSrc ctx (Force_symbols_not_weak_list props) in
  let forceWeakSymbols := OptionalPathForModuleSrc ctx (Force_symbols_weak_list props) in
  '(flags, linkerDeps) ←
    (if negb (isDarwin ctx) then
       let '(flags, linkerDeps) :=
         match versionScript with
         | Some v =>
             (set_LdFlags (LdFlags flags ++ ["-Wl,--version-script," +:+ v]) flags,
              linkerDeps ++ [v])
         | None => (flags, linkerDeps)
         end in
       (if bool_decide (is_Some unexportedSymbols)
        then PropertyErrorf "unexported_symbols_list" "Only supported on Darwin" []
        else mret ()) ;;
       (if bool_decide (is_Some forceNotWeakSymbols)
        then PropertyErrorf "force_symbols_not_weak_list" "Only supported on Darwin" []
        else mret ()) ;;
       (if bool_decide (is_Some forceWeakSymbols)
        then PropertyErrorf "force_symbols_weak_list" "Only supported on Darwin" []
        else mret ()) ;;
       mret (flags, linkerDeps)
     else
       (if bool_decide (is_Some versionScript)
        then PropertyErrorf "version_script" "Not supported on Darwin" []
        else mret ()) ;;
       let '(flags, linkerDeps) :=
         match unexportedSymbols with
         | Some v =>
             (set_LdFlags (LdFlags flags ++ ["-Wl,-unexported_symbols_list," +:+ v]) flags,
              linkerDeps ++ [v])
         | None => (flags, linkerDeps)
         end in
       let '(flags, linkerDeps) :=
         match forceNotWeakSymbols with
         | Some v =>
             (set_LdFlags
                (LdFlags flags ++ ["-Wl,-force_symbols_not_weak_list," +:+ v]) flags,
              linkerDeps ++ [v])
         | None => (flags, linkerDeps)
         end in
       let '(flags, linkerDeps) :=
         match forceWeakSymbols with
         | Some v =>
             (set_LdFlags (LdFlags flags ++ ["-Wl,-force_symbols_weak_list," +:+ v]) flags,
              linkerDeps ++ [v])
         | None => (flags, linkerDeps)
         end in
       mret (flags, linkerDeps));
  let fileName :=
    ModuleName ctx +:+ VariantName props +:+ ShlibSuffix (Toolchain_ flags) in
  let outputFile := PathForModuleOut ctx [fileName] in
  let ret := outputFile in
  let builderFlags := flags in
  outputFile ←
    (if needsStrip (ll_stripper library) ctx then
       let strippedOutputFile := outputFile in
       let outputFile := PathForModuleOut ctx ["unstripped"; fileName] in
       strip (ll_stripper library) ctx outputFile strippedOutputFile builderFlags ;;
       mret outputFile
     else mret outputFile);
  let sharedLibs := pSharedLibs deps in
  let sharedLibs := sharedLibs ++ pLateSharedLibs deps in
  emit (TransformObjToDynamicBinary objFiles_ sharedLibs
          (pStaticLibs deps) (pLateStaticLibs deps) (pWholeStaticLibs deps)
          linkerDeps (pCrtBegin deps) (pCrtEnd deps) false builderFlags outputFile) ;;
  mret ret.

Definition libraryLinker_link (library : libraryLinker) (ctx : BaseContext)
    (flags : Flags) (deps : PathDeps) (objFiles_ : list Path)
    : M (libraryLinker * Path) :=
  let objFiles_ := objFiles_ ++ pObjFiles deps in
  '(library, out) ←
    (if static (ll_baseLinker library) then
       libraryLinker_linkStatic library ctx flags deps objFiles_
     else
       out ← libraryLinker_linkShared library ctx flags deps objFiles_;
       mret (library, out));
  (* library.exportIncludes(ctx, "-I") *)
  let includeDirs := map (λ d, PathForModuleSrc ctx [d]) (Export_include_dirs library) in
  let library :=
    set_exported_flags (exported_flags library ++ [JoinWithPrefix includeDirs "-I"])
      library in
  (* library.reexportFlags(deps.ReexportedCflags) *)
  let library :=
    set_exported_flags (exported_flags library ++ pReexportedCflags deps) library in
  mret (library, out).

(** ** The variant expander: [linkageMutator] *)

(** [m.linker.(baseLinkerInterface)]: every linker of the file but the two
    object linkers has the methods of the interface. *)
Definition baseLinkerInterface (l : linker) : bool :=
  match l with
  | ObjectLinker _ | NdkPrebuiltObjectLinker _ => false
  | _ => true
  end.

Definition buildStatic (l : linker) : bool :=
  match l with
  | LibraryLinker library | NdkPrebuiltLibraryLinker library
  | NdkPrebuiltStlLinker library => BuildStatic library
  | BinaryLinker binary | BenchmarkLinker binary => binaryLinker_buildStatic binary
  | TestLinker test => binaryLinker_buildStatic (t_binaryLinker test)
  | ToolchainLibraryLinker _ => true
  | ObjectLinker _ | NdkPrebuiltObjectLinker _ => false
  end.

Definition buildShared (l : linker) : bool :=
  match l with
  | LibraryLinker library | NdkPrebuiltLibraryLinker library
  | NdkPrebuiltStlLinker library => BuildShared library
  | BinaryLinker binary | BenchmarkLinker binary => binaryLinker_buildShared binary
  | TestLinker test => binaryLinker_buildShared (t_binaryLinker test)
  | ToolchainLibraryLinker _ => false
  | ObjectLinker _ | NdkPrebuiltObjectLinker _ => false
  end.

(** [setStatic] is the method of the embedded [baseLinker]. *)
Definition setStatic (static : bool) (l : linker) : linker :=
  match l with
  | LibraryLinker library =>
      LibraryLinker (set_ll_baseLinker (set_VariantIsStatic static (ll_baseLinker library)) library)
  | NdkPrebuiltLibraryLinker library =>
      NdkPrebuiltLibraryLinker
        (set_ll_baseLinker (set_VariantIsStatic static (ll_baseLinker library)) library)
  | NdkPrebuiltStlLinker library =>
      NdkPrebuiltStlLinker
        (set_ll_baseLinker (set_VariantIsStatic static (ll_baseLinker library)) library)
  | BinaryLinker binary =>
      BinaryLinker
        (set_bin_baseLinker (set_VariantIsStatic static (bin_baseLinker binary)) binary)
  | BenchmarkLinker binary =>
      BenchmarkLinker
        (set_bin_baseLinker (set_VariantIsStatic static (bin_baseLinker binary)) binary)
  | TestLinker test =>
      TestLinker
        (set_t_binaryLinker
           (set_bin_baseLinker
              (set_VariantIsStatic static (bin_baseLinker (t_binaryLinker test)))
              (t_binaryLinker test)) test)
  | ToolchainLibraryLinker base => ToolchainLibraryLinker (set_VariantIsStatic static base)
  | ObjectLinker object => ObjectLinker object
  | NdkPrebuiltObjectLinker object => NdkPrebuiltObjectLinker object
  end.

(** [mctx.AddInterVariantDependency(tag, from, to)], the variants named by
    their variation. *)
Record InterVariantDependency := {
  iv_tag : dependencyTag;
  iv_from : string;
  iv_to : string;
}.

(** [linkageMutator] on a [*cc.Module] named [moduleName]: the variants
    [mctx.CreateLocalVariations] returned, as the mutator leaves them, with
    the name of their variation, and the inter-variant dependencies added. *)
Definition linkageMutator (m : Module) (moduleName : string)
    : M (list (string * Module) * list InterVariantDependency) :=
  match m_linker m with
  | None => mret ([], [])
  | Some linker =>
      if negb (baseLinkerInterface linker) then mret ([], [])
      else if buildStatic linker && buildShared linker then
        let static := set_m_linker (Some (setStatic true linker)) m in
        let shared := set_m_linker (Some (setStatic false linker)) m in
        match m_compiler static with
        | Some (LibraryCompiler staticCompiler) =>
            match m_compiler shared with
            | Some (LibraryCompiler sharedCompiler) =>
                if bool_decide (length (v_Cflags (cStatic (lcProperties staticCompiler))) = 0)
                   && bool_decide (length (v_Cflags (cShared (lcProperties sharedCompiler))) = 0)
                then
                  (* Optimize out compiling common .o files twice for
                     static+shared libraries *)
                  let sharedCompiler :=
                    set_lc_baseCompiler
                      {| bcProperties :=
                           set_Srcs [] (bcProperties (lc_baseCompiler sharedCompiler)) |}
                      sharedCompiler in
                  let shared := set_m_compiler (Some (LibraryCompiler sharedCompiler)) shared in
                  mret ([("static", static); ("shared", shared)],
                        [{| iv_tag := reuseObjTag; iv_from := "shared"; iv_to := "static" |}])
                else mret ([("static", static); ("shared", shared)], [])
            | _ => panic "interface conversion: compiler is not *cc.libraryCompiler" []
            end
        | _ => mret ([("static", static); ("shared", shared)], [])
        end
      else if buildStatic linker then
        mret ([("static", set_m_linker (Some (setStatic true linker)) m)], [])
      else if buildShared linker then
        mret ([("shared", set_m_linker (Some (setStatic false linker)) m)], [])
      else panic "library %q not static or shared" [moduleName]
  end.

(** ** The flag composer: the first part of [GenerateAndroidBuildActions] *)

Definition illegalFlags : list string := ["-w"].

Definition Module_clang (c : Module) (ctx : BaseModuleContext) : bool :=
  let clang := Bool (pClang (Properties c)) in
  let clang :=
    if bool_decide (pClang (Properties c) = None) then
      let clang := if Host ctx then true else clang in
      if Device ctx && DeviceUsesClang ctx then true else clang
    else clang in
  if negb (ClangSupported (ctx_toolchain ctx)) then false else clang.

(** The three assignments that strip [illegalFlags]. *)
Definition filter_illegalFlags (flags : Flags) : Flags :=
  let flags := set_CFlags (filterList (CFlags flags) illegalFlags).1 flags in
  let flags := set_CppFlags (filterList (CppFlags flags) illegalFlags).1 flags in
  let flags := set_ConlyFlags (filterList (ConlyFlags flags) illegalFlags).1 flags in
  flags.

Section FlagComposer.

(** The [flags] stages of the compilers and linkers read toolchain tables and
    checks that are not part of the source ([Toolchain], [CheckBadCompilerFlags],
    the clang filters); here they are given. *)
Variable compiler_flags : compiler → BaseModuleContext → Flags → M Flags.
Variable linker_flags : linker → BaseModuleContext → Flags → M Flags.

Definition optional_flags_stage {X} (x : option X) (f : X → Flags → M Flags)
    (flags : Flags) : M Flags :=
  match x with
  | Some x => f x flags
  | None => mret flags
  end.

Fixpoint features_flags (fs : list feature) (ctx : BaseModuleContext) (flags : Flags)
    : M Flags :=
  match fs with
  | [] => mret flags
  | f :: fs =>
      flags ← run_feature (feature_flags f ctx flags);
      features_flags fs ctx flags
  end.

(** The first part of [GenerateAndroidBuildActions]: the [flags] stages, run
    on a [Flags] that holds the toolchain and the choice of clang. *)
Definition GenerateAndroidBuildActions_stages (c : Module) (ctx : BaseModuleContext)
    : M Flags :=
  let flags :=
    {| GlobalFlags := []; AsFlags := []; CFlags := []; ConlyFlags := [];
       CppFlags := []; YaccFlags := []; LdFlags := []; libFlags := [];
       Nocrt := false; Toolchain_ := ctx_toolchain ctx; Clang := Module_clang c ctx;
       RequiredInstructionSet := ""; DynamicLinker := ""; CFlagsDeps := [] |} in
  flags ← optional_flags_stage (m_compiler c) (λ x, compiler_flags x ctx) flags;
  flags ← optional_flags_stage (m_linker c) (λ x, linker_flags x ctx) flags;
  flags ← optional_flags_stage (m_stl c)
            (λ x f, run_feature (feature_flags (stl_feature x) ctx f)) flags;
  flags ← optional_flags_stage (m_sanitize c)
            (λ x f, run_feature (feature_flags x ctx f)) flags;
  features_flags (m_features c) ctx flags.

(** [GenerateAndroidBuildActions] up to the call of [depsToPaths]: the flags
    it goes on with, or [None] when it returned because the context had
    failed. *)
Definition GenerateAndroidBuildActions_flags (c : Module) (ctx : BaseModuleContext)
    : M (option Flags) :=
  flags ← GenerateAndroidBuildActions_stages c ctx;
  failed ← Failed;
  if (failed : bool) then mret None
  else
    let flags := filter_illegalFlags flags in
    (* Optimization to reduce size of build.ninja
       Replace the long list of flags for each file with a module-local variable *)
    emit (Variable_ "cflags" (Join (CFlags flags) " ")) ;;
    emit (Variable_ "cppflags" (Join (CppFlags flags) " ")) ;;
    emit (Variable_ "asflags" (Join (AsFlags flags) " ")) ;;
    let flags := set_CFlags ["$cflags"] flags in
    let flags := set_CppFlags ["$cppflags"] flags in
    let flags := set_AsFlags ["$asflags"] flags in
    mret (Some flags).

End FlagComposer.

(** ** Scenarios *)

Definition arm64_toolchain : Toolchain :=
  {| Is64Bit := true; ClangSupported := true; ShlibSuffix := ".so";
     ExecutableSuffix := "" |}.

(** A device context for the module named [name]. *)
Definition device_context (name : string) : BaseContext :=
  {| ModuleName := name; Os := Android; ArchType := "arm64";
     ctx_toolchain := arm64_toolchain; HostStaticBinaries := None;
     DeviceUsesClang := true; EmbeddedInMake := false;
     ModuleSrcDir := "src/" +:+ name; ModuleOutDir := "out/" +:+ name |}.

(** The state of a fresh module context over the graph [g]. *)
Definition fresh_state (g : gmap nat Node) : State :=
  {| errs := []; missingDeps := []; graph := g; rules := [] |}.

Definition no_BaseLinkerProperties : BaseLinkerProperties :=
  {| Whole_static_libs := []; Static_libs := []; Shared_libs := [];
     System_shared_libs := None; No_libgcc := None;
     Export_shared_lib_headers := []; Export_static_lib_headers := [] |}.

Definition new_baseLinker (props : BaseLinkerProperties) : baseLinker :=
  {| blProperties := props; VariantIsShared := false; VariantIsStatic := false;
     VariantIsStaticBinary := false; RunPaths := [] |}.

Definition no_variant_compiler : LibraryCompilerVariantProperties :=
  {| v_Srcs := []; v_Exclude_srcs := []; v_Cflags := [] |}.

Definition no_variant_linker : LibraryLinkerVariantProperties :=
  {| v_Enabled := None; v_Whole_static_libs := []; v_Static_libs := [];
     v_Shared_libs := [] |}.

Definition no_LibraryLinkerProperties : LibraryLinkerProperties :=
  {| lStatic := no_variant_linker; lShared := no_variant_linker;
     Version_script := None; Unexported_symbols_list := None;
     Force_symbols_not_weak_list := None; Force_symbols_weak_list := None;
     lNocrt := None; VariantName := "" |}.

(** The linker [NewLibrary(hod, shared, static)] creates, with the given
    base properties. *)
Definition new_libraryLinker (props : BaseLinkerProperties) (shared static_ : bool)
    : libraryLinker :=
  {| ll_baseLinker := new_baseLinker props; exported_flags := [];
     Export_include_dirs := [];
     ll_stripper := {| Strip_None := false; Strip_Keep_symbols := false |};
     llProperties := no_LibraryLinkerProperties;
     BuildStatic := static_; BuildShared := shared;
     wholeStaticMissingDeps := None; objFiles := [] |}.

Definition new_libraryCompiler (srcs : list string)
    (static_ shared : LibraryCompilerVariantProperties) : libraryCompiler :=
  {| lc_baseCompiler :=
       {| bcProperties :=
            {| Srcs := srcs; Exclude_srcs := []; Generated_sources := [];
               Generated_headers := [] |} |};
     lcProperties := {| cStatic := static_; cShared := shared |};
     reuseObjFiles := [] |}.

(** A device module with the given SDK version, compiler and linker, and no
    further stages. *)
Definition device_module (sdk_version : string) (c : option compiler)
    (l : option linker) : Module :=
  {| Enabled := true; Target_Os := Android; Target_ArchType := "arm64";
     Properties := {| pClang := None; Sdk_version := sdk_version;
                      AndroidMkSharedLibs := [] |};
     m_compiler := c; m_linker := l; m_stl := None; m_sanitize := None;
     m_features := []; outputFile := None |}.

(** A shared library built against the SDK that declares the static
    dependencies [A, B, A]. *)
Definition sdk_library_ABA : Module :=
  device_module "21"
    (Some (LibraryCompiler (new_libraryCompiler ["a.c"] no_variant_compiler no_variant_compiler)))
    (Some (LibraryLinker
       (new_libraryLinker
          {| Whole_static_libs := []; Static_libs := ["A"; "B"; "A"];
             Shared_libs := []; System_shared_libs := None; No_libgcc := None;
             Export_shared_lib_headers := []; Export_static_lib_headers := [] |}
          true false))).

(** A library that re-exports the headers of [libfoo], which it links, and
    of [libbar], which it does not. *)
Definition library_reexporting : Module :=
  device_module ""
    (Some (LibraryCompiler (new_libraryCompiler ["a.c"] no_variant_compiler no_variant_compiler)))
    (Some (LibraryLinker
       (new_libraryLinker
          {| Whole_static_libs := []; Static_libs := [];
             Shared_libs := ["libfoo"]; System_shared_libs := None; No_libgcc := None;
             Export_shared_lib_headers := ["libfoo"; "libbar"];
             Export_static_lib_headers := [] |}
          true false))).

(** A dynamic executable, and a static executable, that list [libc] among
    their [static_libs]. *)
Definition new_binaryLinker (static_libs : list string) (static_executable : option bool)
    : binaryLinker :=
  {| bin_baseLinker :=
       new_baseLinker
         {| Whole_static_libs := []; Static_libs := static_libs; Shared_libs := [];
            System_shared_libs := None; No_libgcc := None;
            Export_shared_lib_headers := []; Export_static_lib_headers := [] |};
     bin_stripper := {| Strip_None := false; Strip_Keep_symbols := false |};
     binProperties := {| Static_executable := static_executable; Stem := "";
                         Suffix := ""; Prefix_symbols := "" |};
     hostToolPath := None |}.

Definition dynamic_binary_libc : Module :=
  device_module ""
    (Some (BaseCompiler {| bcProperties :=
       {| Srcs := ["main.c"]; Exclude_srcs := []; Generated_sources := [];
          Generated_headers := [] |} |}))
    (Some (BinaryLinker (new_binaryLinker ["libfoo"; "libc"] None))).

Definition static_binary_libc : Module :=
  device_module ""
    (Some (BaseCompiler {| bcProperties :=
       {| Srcs := ["main.c"]; Exclude_srcs := []; Generated_sources := [];
          Generated_headers := [] |} |}))
    (Some (BinaryLinker (new_binaryLinker ["libfoo"; "libc"] (Some true)))).

(** The linker of a binary as [binaryLinker.begin] leaves it in the context
    of the module. *)
Definition begun_binaryLinker (m : Module) (name : string) : option binaryLinker :=
  match m_linker (Module_begin m (device_context name)) with
  | Some (BinaryLinker b) => Some b
  | _ => None
  end.

(** The error [binaryLinker.deps] reports. *)
Definition libc_in_dynamic_executable : Error :=
  ModuleError
    ("statically linking libc to dynamic executable, please remove libc"
     +:+ newline +:+ "from static libs or set static_executable: true") [].

(** Libraries for the variant expander: one that builds both modes and has
    a source file of its own for the shared mode; one that builds both modes
    and has a flag of its own for the static mode; one that builds neither
    mode. *)
Definition library_shared_srcs : Module :=
  device_module ""
    (Some (LibraryCompiler
       (new_libraryCompiler ["common.c"] no_variant_compiler
          {| v_Srcs := ["shared_only.c"]; v_Exclude_srcs := []; v_Cflags := [] |})))
    (Some (LibraryLinker (new_libraryLinker no_BaseLinkerProperties true true))).

Definition library_static_cflags : Module :=
  device_module ""
    (Some (LibraryCompiler
       (new_libraryCompiler ["common.c"]
          {| v_Srcs := []; v_Exclude_srcs := []; v_Cflags := ["-DSTATIC"] |}
          no_variant_compiler)))
    (Some (LibraryLinker (new_libraryLinker no_BaseLinkerProperties true true))).

Definition library_neither : Module :=
  device_module ""
    (Some (LibraryCompiler
       (new_libraryCompiler ["common.c"] no_variant_compiler no_variant_compiler)))
    (Some (LibraryLinker (new_libraryLinker no_BaseLinkerProperties false false))).

(** The sources a variant compiles as its common objects, and the sources of
    its own that a library declares for a mode. *)
Definition common_Srcs (m : Module) : list string :=
  match m_compiler m with
  | Some (BaseCompiler c) => Srcs (bcProperties c)
  | Some (LibraryCompiler c) => Srcs (bcProperties (lc_baseCompiler c))
  | None => []
  end.

(** The shared variant as [linkageMutator] leaves it when it adds the reuse
    edge: the source list of its compiler is [nil]. *)
Definition clear_Srcs (lc : libraryCompiler) : libraryCompiler :=
  set_lc_baseCompiler
    {| bcProperties := set_Srcs [] (bcProperties (lc_baseCompiler lc)) |} lc.

Definition reuse_edge : InterVariantDependency :=
  {| iv_tag := reuseObjTag; iv_from := "shared"; iv_to := "static" |}.

(** Whether a module of the graph is a static-library variant: a
    [*cc.Module] whose linker is a [*libraryLinker] with [static()]. *)
Definition is_static_library (bm : BlueprintModule) : bool :=
  match bm with
  | CcModule cc =>
      match m_linker cc with
      | Some (LibraryLinker l) => static (ll_baseLinker l)
      | _ => false
      end
  | _ => false
  end.

Definition is_ModuleError (e : Error) : Prop :=
  match e with
  | ModuleError _ _ => True
  | PropertyError _ _ _ => False
  end.

(** A shared library that whole-static-links [libw], and a graph in which
    node [0], named [libw], is a shared library. *)
Definition library_whole_static : Module :=
  device_module ""
    (Some (LibraryCompiler (new_libraryCompiler ["a.c"] no_variant_compiler no_variant_compiler)))
    (Some (LibraryLinker
       (set_ll_baseLinker
          (set_VariantIsStatic false
             (new_baseLinker
                {| Whole_static_libs := ["libw"]; Static_libs := []; Shared_libs := [];
                   System_shared_libs := None; No_libgcc := None;
                   Export_shared_lib_headers := []; Export_static_lib_headers := [] |}))
          (new_libraryLinker no_BaseLinkerProperties true false)))).

Definition shared_libw : Node :=
  {| node_name := "libw";
     node_module :=
       CcModule
         {| Enabled := true; Target_Os := Android; Target_ArchType := "arm64";
            Properties := {| pClang := None; Sdk_version := "";
                             AndroidMkSharedLibs := [] |};
            m_compiler := None;
            m_linker := Some (LibraryLinker
                                (new_libraryLinker no_BaseLinkerProperties true false));
            m_stl := None; m_sanitize := None; m_features := [];
            outputFile := Some "out/libw/libw.so" |} |}.

(** The scenario of a missing dependency: the static library [W] depends
    on [X], which does not exist; the build graph records [X] as a missing
    dependency in the context of [W], and [W] is linked.  Two static
    libraries, [C1] and [C2], whole-static-link [W]. *)
Definition no_flags : Flags :=
  {| GlobalFlags := []; AsFlags := []; CFlags := []; ConlyFlags := [];
     CppFlags := []; YaccFlags := []; LdFlags := []; libFlags := [];
     Nocrt := false; Toolchain_ := arm64_toolchain; Clang := true;
     RequiredInstructionSet := ""; DynamicLinker := ""; CFlagsDeps := [] |}.

Definition static_library (whole_static_libs : list string) : Module :=
  device_module ""
    (Some (LibraryCompiler (new_libraryCompiler ["a.c"] no_variant_compiler no_variant_compiler)))
    (Some (setStatic true
       (LibraryLinker
          (new_libraryLinker
             {| Whole_static_libs := whole_static_libs; Static_libs := [];
                Shared_libs := []; System_shared_libs := None; No_libgcc := None;
                Export_shared_lib_headers := []; Export_static_lib_headers := [] |}
             false true)))).

(** The node of [m], named [name], once its linker [library] has linked the
    objects [objs] in a context that holds the missing dependencies
    [missing]. *)
Definition linked_node (name : string) (m : Module) (library : libraryLinker)
    (deps : PathDeps) (objs : list Path) (missing : list string) : option Node :=
  match libraryLinker_link library (device_context name) no_flags deps objs
          (set_missingDeps missing (fresh_state ∅)) with
  | Ok ((library, out), _) =>
      Some {| node_name := name;
              node_module :=
                CcModule (set_m_linker (Some (LibraryLinker library))
                  {| Enabled := Enabled m; Target_Os := Target_Os m;
                     Target_ArchType := Target_ArchType m;
                     Properties := Properties m; m_compiler := m_compiler m;
                     m_linker := m_linker m; m_stl := m_stl m;
                     m_sanitize := m_sanitize m; m_features := m_features m;
                     outputFile := Some out |}) |}
  | Panic _ _ => None
  end.

Definition static_libraryLinker (m : Module) : libraryLinker :=
  match m_linker m with
  | Some (LibraryLinker l) => l
  | _ => new_libraryLinker no_BaseLinkerProperties false true
  end.

Definition node_W : option Node :=
  linked_node "W" (static_library []) (static_libraryLinker (static_library []))
    EmptyPathDeps ["out/W/w.o"] ["X"].

Definition graph_W : gmap nat Node :=
  match node_W with
  | Some n => {[ 0 := n ]}
  | None => ∅
  end.

Definition edge_to_W : DirectDep :=
  {| dep_node := 0; dep_tag := CcDepTag wholeStaticDepTag |}.

(** The linker of [C1] once [C1] has resolved its edge to [W] and linked its
    own object, in the context of that resolution. *)
Definition C1_linked : option libraryLinker :=
  match Module_depsToPaths (static_library ["W"]) (device_context "C1") [edge_to_W]
          (fresh_state graph_W) with
  | Ok (deps, st) =>
      match libraryLinker_link (static_libraryLinker (static_library ["W"]))
              (device_context "C1") no_flags deps ["out/C1/a.o"] st with
      | Ok ((library, _), _) => Some library
      | Panic _ _ => None
      end
  | Panic _ _ => None
  end.

(** The missing dependencies a resolution leaves in the context, and the
    graph it leaves. *)
Definition missing_after {A} (r : Result (A * State)) : option (list string) :=
  match r with
  | Ok (_, st) => Some (missingDeps st)
  | Panic _ _ => None
  end.

Definition graph_after {A} (g : gmap nat Node) (r : Result (A * State)) : gmap nat Node :=
  match r with
  | Ok (_, st) => graph st
  | Panic _ _ => g
  end.

Definition objects_absorbed (r : Result (PathDeps * State)) : option (list Path) :=
  match r with
  | Ok (d, _) => Some (pWholeStaticLibObjFiles d)
  | Panic _ _ => None
  end.

(** What the static library [W] holds as its missing dependencies in a
    graph. *)
Definition recorded_by_W (g : gmap nat Node) : option (list string) :=
  match g !! 0 with
  | Some {| node_module := CcModule cc |} =>
      match m_linker cc with
      | Some (LibraryLinker l) => wholeStaticMissingDeps l
      | _ => None
      end
  | _ => None
  end.

(** A compiler stage that passes [-w] both as a C flag and as an assembler
    flag, and a linker stage that adds nothing. *)
Definition compiler_flags_w (c : compiler) (ctx : BaseModuleContext) (flags : Flags)
    : M Flags :=
  mret (set_AsFlags (AsFlags flags ++ ["-w"; "-g"])
          (set_CFlags (CFlags flags ++ ["-w"; "-O2"]) flags)).

Definition linker_flags_none (l : linker) (ctx : BaseModuleContext) (flags : Flags)
    : M Flags :=
  mret flags.

(** The variables a run emitted. *)
Definition variables_of {A} (r : Result (A * State)) : list (string * string) :=
  match r with
  | Ok (_, st) =>
      omap (λ rule, match rule with
                    | Variable_ n v => Some (n, v)
                    | _ => None
                    end) (rules st)
  | Panic _ _ => []
  end.

(** ** Definitions used to state the properties *)

(** A computation whose outcome is the same from every state, and whose
    only effect is to report errors. *)
Definition reports_only {A} (m : M A) : Prop :=
  ∃ r : Result (A * list Error), ∀ st, m st = run_feature r st.


(** What the five calls of [lastUniqueElements] in [Module.deps] make of the
    accumulated [Deps], in terms of [lastUnique]. *)
Definition dedupDeps (deps : Deps) : Deps :=
  let deps := set_WholeStaticLibs (lastUnique (WholeStaticLibs deps)) deps in
  let deps := set_StaticLibs (lastUnique (StaticLibs deps)) deps in
  let deps := set_LateStaticLibs (lastUnique (LateStaticLibs deps)) deps in
  let deps := set_SharedLibs (lastUnique (SharedLibs deps)) deps in
  let deps := set_LateSharedLibs (lastUnique (LateSharedLibs deps)) deps in
  deps.

Definition shared_reexport_error (lib : string) : Error :=
  PropertyError "export_shared_lib_headers" "Shared library not in shared_libs: '%s'" [lib].

Definition static_reexport_error (lib : string) : Error :=
  PropertyError "export_static_lib_headers" "Static library not in static_libs: '%s'" [lib].

(** The errors the two validation loops of [Module.deps] report: one for
    every re-export entry that is missing from its base list, in order. *)
Definition reexport_errors (deps : Deps) : list Error :=
  omap (λ lib, if inList lib (SharedLibs deps) then None
               else Some (shared_reexport_error lib))
       (ReexportSharedLibHeaders deps)
  ++ omap (λ lib, if inList lib (StaticLibs deps) then None
                  else Some (static_reexport_error lib))
       (ReexportStaticLibHeaders deps).

(** The node [n] with [v] as the missing dependencies its linker records,
    when it is a [*cc.Module] linked by a [*libraryLinker]; [n] itself
    otherwise.  This is what the visit of a whole-static edge writes back to
    the graph. *)
Definition relink (v : option (list string)) (n : Node) : Node :=
  match node_module n with
  | CcModule cc =>
      match m_linker cc with
      | Some (LibraryLinker staticLib) =>
          set_node_module
            (CcModule
               (set_m_linker
                  (Some (LibraryLinker (set_wholeStaticMissingDeps v staticLib))) cc))
            n
      | _ => n
      end
  | _ => n
  end.

(** [n'] is [n] but for the missing dependencies its linker records, and
    [g'] holds the nodes of [g] but for those records: what resolutions may
    have made of [g]. *)
Definition node_later (n n' : Node) : Prop := n' = n ∨ ∃ v, n' = relink v n.

Definition later (g g' : gmap nat Node) : Prop :=
  ∀ id, option_Forall2 node_later (g !! id) (g' !! id).

(** The path list of a [PathDeps] that a [DepPtr] stands for. *)
Definition bucket (ptr : DepPtr) (depPaths : PathDeps) : list Path :=
  match ptr with
  | PtrSharedLibs => pSharedLibs depPaths
  | PtrLateSharedLibs => pLateSharedLibs depPaths
  | PtrStaticLibs => pStaticLibs depPaths
  | PtrLateStaticLibs => pLateStaticLibs depPaths
  | PtrWholeStaticLibs => pWholeStaticLibs depPaths
  | PtrObjFiles => pObjFiles depPaths
  end.

#[global] Instance DepPtr_eq_dec : EqDecision DepPtr.
Proof. solve_decision. Defined.

(** The four buckets of libraries that are linked, not absorbed. *)
Definition library_ptrs : list DepPtr :=
  [PtrSharedLibs; PtrLateSharedLibs; PtrStaticLibs; PtrLateStaticLibs].

(** The bucket of a library tag: the ordinary shared bucket for the shared
    tags, the ordinary static bucket for the static tags, the late buckets
    for the late tags. *)
Definition tag_bucket (t : dependencyTag) : option DepPtr :=
  if decide (t = sharedDepTag ∨ t = sharedExportDepTag) then Some PtrSharedLibs
  else if decide (t = lateSharedDepTag) then Some PtrLateSharedLibs
  else if decide (t = staticDepTag ∨ t = staticExportDepTag) then Some PtrStaticLibs
  else if decide (t = lateStaticDepTag) then Some PtrLateStaticLibs
  else None.

(** The output file of a dependency that passes the checks the visit makes
    of every [*cc.Module]: it is enabled and built for the OS and the
    architecture of the context. *)
Definition healthy_output (ctx : BaseContext) (cc : Module) : option Path :=
  if Enabled cc && bool_decide (Target_Os cc = Os ctx)
     && bool_decide (Target_ArchType cc = ArchType ctx)
  then outputFile cc else None.

(** The file an edge with tag [tag] to the node [node] brings to the bucket
    [ptr]: the output file of the dependency, when it is a [*cc.Module] that
    passes the checks and the tag is a tag of that bucket. *)
Definition node_path (ctx : BaseContext) (node : Node) (tag : DependencyTag)
    (ptr : DepPtr) : option Path :=
  match node_module node, tag with
  | CcModule cc, CcDepTag t =>
      if decide (tag_bucket t = Some ptr) then healthy_output ctx cc else None
  | _, _ => None
  end.

(** The file the edge [d] of the graph [g] brings to the bucket [ptr]. *)
Definition edge_path (ctx : BaseContext) (g : gmap nat Node) (ptr : DepPtr)
    (d : DirectDep) : option Path :=
  match g !! dep_node d with
  | Some node => node_path ctx node (dep_tag d) ptr
  | None => None
  end.

(** The files the edges bring to a bucket, in the order of the edges. *)
Definition edge_paths (ctx : BaseContext) (g : gmap nat Node) (ptr : DepPtr)
    (directDeps : list DirectDep) : list Path :=
  omap (edge_path ctx g ptr) directDeps.

(** * Properties *)

Section LastUnique.

Implicit Types (l r : list string) (x y : string).

(** A non-empty run [y :: K] read from its other end. *)
Lemma exists_last_cons y (K : list string) :
  ∃ K2 z, y :: K = K2 ++ [z] ∧ length K2 = length K.
Proof.
  revert y. induction K as [|k K IH]; intros y.
  - by exists [], y.
  - destruct (IH k) as (K2 & z & HK & Hlen).
    exists (y :: K2), z. split; [by rewrite HK|simpl; lia].
Qed.

Lemma lastUnique_elem_of l x : x ∈ lastUnique l ↔ x ∈ l.
Proof.
  induction l as [|y r IH]; simpl; [done|].
  case_decide as Hy; simpl; rewrite ?elem_of_cons, IH; [|done].
  split; [auto|]. by intros [->|?].
Qed.

Lemma lastUnique_NoDup l : NoDup (lastUnique l).
Proof.
  induction l as [|y r IH]; simpl; [constructor|].
  case_decide; [done|]. constructor; [|done].
  by rewrite lastUnique_elem_of.
Qed.

Lemma lastUnique_sublist l : lastUnique l `sublist_of` l.
Proof.
  induction l as [|y r IH]; simpl; [done|].
  case_decide; by constructor.
Qed.

(** Elements before a split survive when they do not recur after it. *)
Lemma lastUnique_app l1 l2 :
  lastUnique (l1 ++ l2) = filter (λ y, y ∉ l2) (lastUnique l1) ++ lastUnique l2.
Proof.
  induction l1 as [|y r IH]; simpl; [done|].
  destruct (decide (y ∈ r)) as [Hin|Hnin].
  - rewrite decide_True by (rewrite elem_of_app; auto). done.
  - destruct (decide (y ∈ l2)) as [Hin2|Hnin2].
    + rewrite decide_True by (rewrite elem_of_app; auto).
      rewrite filter_cons_False by auto. done.
    + rewrite decide_False by (rewrite elem_of_app; tauto).
      rewrite filter_cons_True by done. simpl. by rewrite IH.
Qed.

Lemma lastUnique_filter_ne l x :
  filter (λ y, y ≠ x) (lastUnique l) = lastUnique (filter (λ y, y ≠ x) l).
Proof.
  induction l as [|y r IH]; simpl; [done|].
  destruct (decide (y = x)) as [->|Hne].
  - rewrite (filter_cons_False _ x r) by auto.
    case_decide; [done|]. by rewrite filter_cons_False by auto.
  - rewrite (filter_cons_True _ y r) by done. simpl.
    destruct (decide (y ∈ r)) as [Hin|Hnin].
    + rewrite decide_True by (apply list_elem_of_filter; done). done.
    + rewrite decide_False by (rewrite list_elem_of_filter; tauto).
      rewrite filter_cons_True by done. by rewrite IH.
Qed.

Lemma lastUnique_snoc l x :
  lastUnique (l ++ [x]) = lastUnique (filter (λ y, y ≠ x) l) ++ [x].
Proof.
  rewrite lastUnique_app. simpl. rewrite <- lastUnique_filter_ne.
  f_equal. apply list_filter_iff. intros y. rewrite list_elem_of_singleton. done.
Qed.

Lemma filter_eq_ne_length l x :
  length (filter (λ y, y = x) l) + length (filter (λ y, y ≠ x) l) = length l.
Proof.
  induction l as [|y r IH]; simpl; [done|].
  destruct (decide (y = x)) as [->|Hne].
  - rewrite filter_cons_True by done.
    rewrite (filter_cons_False (λ y, y ≠ x)) by auto. simpl. lia.
  - rewrite filter_cons_False by done.
    rewrite (filter_cons_True (λ y, y ≠ x)) by done. simpl. lia.
Qed.

Lemma insert_at_length (l1 l2 : list string) z v :
  <[length l1 := v]> (l1 ++ z :: l2) = l1 ++ v :: l2.
Proof.
  rewrite insert_app_r_alt by lia. by rewrite Nat.sub_diag.
Qed.

Lemma lastUniqueElements_inner_S j totalSkip i skip arr :
  lastUniqueElements_inner (S j) totalSkip i skip arr =
  if decide (j < totalSkip) then Some (skip, arr)
  else
    li ← arr !! i;
    lj ← arr !! j;
    if decide (li = lj) then lastUniqueElements_inner j totalSkip i (S skip) arr
    else if decide (j + skip < length arr) then
      lastUniqueElements_inner j totalSkip i skip (<[j + skip := lj]> arr)
    else None.
Proof. done. Qed.

(** The inner loop on an array laid out as
    [G ++ A ++ K ++ F ++ x :: D]: [G] lies below [totalSkip], [A] is still to
    be scanned, [K] are the [skip] cells freed so far, [F] the elements already
    moved up, [x = list[i]] and [D] the part above [i]. *)
Lemma lastUniqueElements_inner_spec A :
  ∀ G K F x D jp1 i,
    jp1 = length G + length A →
    i = length G + length A + length K + length F →
    ∃ K', length K' = length K + length (filter (λ y, y = x) A) ∧
      lastUniqueElements_inner jp1 (length G) i (length K)
        (G ++ A ++ K ++ F ++ x :: D)
      = Some (length K', G ++ K' ++ filter (λ y, y ≠ x) A ++ F ++ x :: D).
Proof.
  induction A as [|y A0 IH] using rev_ind; intros G K F x D jp1 i -> Hi.
  - exists K. split; [simpl; lia|]. simpl. rewrite Nat.add_0_r.
    destruct (length G) as [|j] eqn:HG; simpl; [done|].
    by rewrite decide_True by lia.
  - rewrite length_app in Hi |- *. simpl in Hi |- *.
    replace (length G + (length A0 + 1)) with (S (length G + length A0)) by lia.
    rewrite lastUniqueElements_inner_S, decide_False by lia.
    assert (Hli : (G ++ (A0 ++ [y]) ++ K ++ F ++ x :: D) !! i = Some x).
    { replace (G ++ (A0 ++ [y]) ++ K ++ F ++ x :: D)
        with ((G ++ (A0 ++ [y]) ++ K ++ F) ++ x :: D)
        by (by rewrite <- !(assoc_L (++))).
      apply list_lookup_middle. rewrite !length_app. simpl. lia. }
    assert (Hlj : (G ++ (A0 ++ [y]) ++ K ++ F ++ x :: D)
                   !! (length G + length A0) = Some y).
    { replace (G ++ (A0 ++ [y]) ++ K ++ F ++ x :: D)
        with ((G ++ A0) ++ y :: (K ++ F ++ x :: D))
        by (by rewrite <- !(assoc_L (++))).
      apply list_lookup_middle. rewrite length_app. lia. }
    rewrite Hli, Hlj. simpl.
    destruct (decide (x = y)) as [<-|Hne].
    + destruct (IH G (x :: K) F x D (length G + length A0) i)
        as (K' & HK' & Hrun); [done|simpl; lia|].
      exists K'. split.
      * rewrite HK', filter_app, length_app. simpl.
        rewrite filter_cons_True by done. simpl. lia.
      * simpl in Hrun. rewrite <- (assoc_L (++) A0 [x]). simpl.
        rewrite Hrun. rewrite filter_app.
        rewrite (filter_cons_False _ x []) by auto.
        by rewrite filter_nil, (right_id_L [] (++)).
    + rewrite decide_True
        by (repeat (rewrite length_app; simpl); lia).
      destruct (exists_last_cons y K) as (K2 & z & HK2 & HlenK2).
      destruct (IH G K2 (y :: F) x D (length G + length A0) i)
        as (K' & HK' & Hrun); [done|simpl; lia|].
      exists K'. split.
      * rewrite HK', filter_app, length_app. simpl.
        rewrite filter_cons_False by auto. simpl. lia.
      * replace (<[length G + length A0 + length K := y]>
                   (G ++ (A0 ++ [y]) ++ K ++ F ++ x :: D))
          with (G ++ A0 ++ K2 ++ (y :: F) ++ x :: D).
        { rewrite HlenK2 in Hrun. rewrite Hrun. rewrite filter_app.
          rewrite (filter_cons_True _ y []) by auto.
          rewrite filter_nil. by rewrite <- !(assoc_L (++)). }
        replace (G ++ (A0 ++ [y]) ++ K ++ F ++ x :: D)
          with ((G ++ A0 ++ K2) ++ z :: (F ++ x :: D)).
        { replace (length G + length A0 + length K)
            with (length (G ++ A0 ++ K2)) by (rewrite !length_app; lia).
          rewrite insert_at_length. by rewrite <- !(assoc_L (++)). }
        rewrite <- !(assoc_L (++)). simpl.
        change (y :: K ++ F ++ x :: D) with ((y :: K) ++ F ++ x :: D).
        rewrite HK2. by rewrite <- !(assoc_L (++)).
Qed.

Lemma lastUniqueElements_outer_S i totalSkip arr :
  lastUniqueElements_outer (S i) totalSkip arr =
  if decide (i < totalSkip) then Some (totalSkip, arr)
  else
    '(skip, arr') ← lastUniqueElements_inner i totalSkip i 0 arr;
    lastUniqueElements_outer i (totalSkip + skip) arr'.
Proof. done. Qed.

(** The outer loop on an array laid out as [G ++ R ++ D]: [G] lies below
    [totalSkip], [R] is still to be processed and [D] is finished. *)
Lemma lastUniqueElements_outer_spec n :
  ∀ R G D ip1,
    length R = n →
    ip1 = length G + length R →
    ∃ G', lastUniqueElements_outer ip1 (length G) (G ++ R ++ D)
          = Some (length G', G' ++ lastUnique R ++ D).
Proof.
  induction n as [n IH] using lt_wf_ind. intros R G D ip1 Hn ->.
  destruct R as [|x R0 _] using rev_ind.
  - exists G. simpl. rewrite Nat.add_0_r.
    destruct (length G) as [|j] eqn:HG; simpl; [done|].
    by rewrite decide_True by lia.
  - rewrite length_app in Hn |- *. simpl in Hn |- *.
    replace (length G + (length R0 + 1)) with (S (length G + length R0)) by lia.
    rewrite lastUniqueElements_outer_S, decide_False by lia.
    destruct (lastUniqueElements_inner_spec R0 G [] [] x D
                (length G + length R0) (length G + length R0))
      as (K' & HK' & Hrun); [done|simpl; lia|].
    simpl in Hrun, HK'. rewrite <- (assoc_L (++) R0 [x]). simpl.
    rewrite Hrun. simpl.
    pose proof (filter_eq_ne_length R0 x) as Hlen.
    destruct (IH (length (filter (λ y, y ≠ x) R0)) ltac:(lia)
                (filter (λ y, y ≠ x) R0) (G ++ K') (x :: D)
                (length G + length R0))
      as (G' & Hrun'); [done|rewrite length_app; lia|].
    exists G'. rewrite length_app in Hrun'.
    rewrite <- (assoc_L (++) G K') in Hrun'. rewrite Hrun'.
    rewrite lastUnique_snoc. by rewrite <- !(assoc_L (++)).
Qed.

(** The in-place loops compute the documented list, and never index out of
    range. *)
Lemma lastUniqueElements_lastUnique l :
  lastUniqueElements l = Some (lastUnique l).
Proof.
  unfold lastUniqueElements.
  destruct (lastUniqueElements_outer_spec (length l) l [] [] (length l))
    as (G' & Hrun); [done|done|].
  simpl in Hrun. rewrite (right_id_L [] (++)) in Hrun. rewrite Hrun. simpl.
  by rewrite drop_app_length, (right_id_L [] (++)).
Qed.

End LastUnique.

(** ** The monad *)

Lemma set_errs_id st : set_errs (errs st) st = st.
Proof. by destruct st. Qed.

Lemma bind_Ok {A B} (m : M A) (f : A → M B) st a st' :
  m st = Ok (a, st') → (m ≫= f) st = f a st'.
Proof. intros H. unfold mbind, M_bind. by rewrite H. Qed.

Lemma bind_Panic {A B} (m : M A) (f : A → M B) st fmt args :
  m st = Panic fmt args → (m ≫= f) st = Panic fmt args.
Proof. intros H. unfold mbind, M_bind. by rewrite H. Qed.

(** A loop that reports an error for some of the entries. *)
Lemma forRange_errors {A} (l : list A) (body : A → M unit)
    (report : A → option Error) st :
  (∀ x st, body x st = Ok ((), set_errs (errs st ++ from_option (λ e, [e]) [] (report x)) st)) →
  forRange l body st = Ok ((), set_errs (errs st ++ omap report l) st).
Proof.
  intros Hbody. revert st. induction l as [|x l IH]; intros st; simpl.
  - by rewrite (right_id_L [] (++)), set_errs_id.
  - unfold mbind, M_bind. rewrite Hbody, IH. simpl.
    destruct (report x) as [e|]; simpl.
    + by rewrite <- (assoc_L (++)).
    + by rewrite (right_id_L [] (++)).
Qed.

(** ** [Module.deps] *)

Lemma call_lastUniqueElements_eq l st :
  call_lastUniqueElements l st = Ok (lastUnique l, st).
Proof.
  unfold call_lastUniqueElements. by rewrite lastUniqueElements_lastUnique.
Qed.

(** [Module.deps] runs the stages, deduplicates the five buckets and reports
    the re-export entries that are missing from their base list. *)
Lemma Module_deps_eq c ctx st :
  Module_deps c ctx st =
  match Module_deps_stages c ctx st with
  | Panic fmt args => Panic fmt args
  | Ok (deps, st1) =>
      Ok (dedupDeps deps,
          set_errs (errs st1 ++ reexport_errors (dedupDeps deps)) st1)
  end.
Proof.
  unfold Module_deps. unfold mbind at 1, M_bind at 1.
  destruct (Module_deps_stages c ctx st) as [fmt args|[deps st1]]; [done|].
  repeat (unfold mbind at 1, M_bind at 1; rewrite call_lastUniqueElements_eq).
  fold (dedupDeps deps). set (d := dedupDeps deps).
  unfold mbind at 1, M_bind at 1.
  rewrite (forRange_errors (ReexportSharedLibHeaders d) _
    (λ lib, if inList lib (SharedLibs d) then None
            else Some (shared_reexport_error lib)))
    by (intros x s; destruct (inList x (SharedLibs d)); simpl;
        [by rewrite (right_id_L [] (++)), set_errs_id|done]).
  unfold mbind at 1, M_bind at 1.
  rewrite (forRange_errors (ReexportStaticLibHeaders d) _
    (λ lib, if inList lib (StaticLibs d) then None
            else Some (static_reexport_error lib)))
    by (intros x s; destruct (inList x (StaticLibs d)); simpl;
        [by rewrite (right_id_L [] (++)), set_errs_id|done]).
  simpl. unfold reexport_errors. by rewrite (assoc_L (++)).
Qed.

Lemma dedupDeps_fields deps :
  WholeStaticLibs (dedupDeps deps) = lastUnique (WholeStaticLibs deps)
  ∧ StaticLibs (dedupDeps deps) = lastUnique (StaticLibs deps)
  ∧ LateStaticLibs (dedupDeps deps) = lastUnique (LateStaticLibs deps)
  ∧ SharedLibs (dedupDeps deps) = lastUnique (SharedLibs deps)
  ∧ LateSharedLibs (dedupDeps deps) = lastUnique (LateSharedLibs deps)
  ∧ ReexportSharedLibHeaders (dedupDeps deps) = ReexportSharedLibHeaders deps
  ∧ ReexportStaticLibHeaders (dedupDeps deps) = ReexportStaticLibHeaders deps.
Proof. done. Qed.

(** C3: [lastUniqueElements], which [Module.deps] applies to each of the
    five dependency-name lists (whole-static, static, late-static, shared,
    late-shared), returns without an index out of range the list that keeps
    exactly one occurrence of every name, the last one: the result has no
    duplicates and the same names as the input, it is a subsequence of the
    input (the survivors keep their relative order), and an entry survives
    exactly when the name does not occur again after it.  In particular
    [A, B, A] yields [B, A], also as the static bucket of a module that
    declares these static dependencies. *)
Theorem lastUniqueElements_keeps_last_occurrence :
  (∀ l : list string,
     lastUniqueElements l = Some (lastUnique l)
     ∧ NoDup (lastUnique l)
     ∧ (∀ x, x ∈ lastUnique l ↔ x ∈ l)
     ∧ lastUnique l `sublist_of` l)
  ∧ (∀ (x : string) (r : list string),
       lastUnique (x :: r) = if decide (x ∈ r) then lastUnique r else x :: lastUnique r)
  ∧ (∀ l1 l2 : list string,
       lastUnique (l1 ++ l2) = filter (λ y, y ∉ l2) (lastUnique l1) ++ lastUnique l2)
  ∧ lastUniqueElements ["A"; "B"; "A"] = Some ["B"; "A"]
  ∧ (∀ c ctx st,
       match Module_deps_stages c ctx st, Module_deps c ctx st with
       | Ok (deps0, _), Ok (deps, _) =>
           WholeStaticLibs deps = lastUnique (WholeStaticLibs deps0)
           ∧ StaticLibs deps = lastUnique (StaticLibs deps0)
           ∧ LateStaticLibs deps = lastUnique (LateStaticLibs deps0)
           ∧ SharedLibs deps = lastUnique (SharedLibs deps0)
           ∧ LateSharedLibs deps = lastUnique (LateSharedLibs deps0)
       | Panic _ _, Panic _ _ => True
       | _, _ => False
       end)
  ∧ (∃ deps st,
       Module_deps sdk_library_ABA
         {| actx := device_context "libaba"; mod_ := sdk_library_ABA |}
         (fresh_state ∅) = Ok (deps, st)
       ∧ StaticLibs deps = ["B"; "A"]).
Proof.
  split; [|split; [|split; [|split; [|split]]]].
  - intros l. split; [apply lastUniqueElements_lastUnique|].
    split; [apply lastUnique_NoDup|].
    split; [intros x; apply lastUnique_elem_of|apply lastUnique_sublist].
  - done.
  - apply lastUnique_app.
  - by rewrite lastUniqueElements_lastUnique.
  - intros c ctx st. rewrite Module_deps_eq.
    destruct (Module_deps_stages c ctx st) as [fmt args|[deps0 st1]]; [done|].
    by destruct (dedupDeps_fields deps0) as (-> & -> & -> & -> & -> & _).
  - eexists _, _. rewrite Module_deps_eq. split; [vm_compute; reflexivity|].
    vm_compute. reflexivity.
Qed.

(** C4: when the stages of [Module.deps] return, [Module.deps] returns too
    (it does not panic), and what it reports beyond the stages is exactly one
    property error for every entry of [export_shared_lib_headers] that is not
    in the deduplicated shared-libs list and one for every entry of
    [export_static_lib_headers] that is not in the deduplicated static-libs
    list; an entry that is in its base list produces no such error. *)
Theorem Module_deps_reexport_errors c ctx st deps0 st0 :
  Module_deps_stages c ctx st = Ok (deps0, st0) →
  ∃ deps,
    Module_deps c ctx st = Ok (deps, set_errs (errs st0 ++ reexport_errors deps) st0)
    ∧ SharedLibs deps = lastUnique (SharedLibs deps0)
    ∧ StaticLibs deps = lastUnique (StaticLibs deps0)
    ∧ ReexportSharedLibHeaders deps = ReexportSharedLibHeaders deps0
    ∧ ReexportStaticLibHeaders deps = ReexportStaticLibHeaders deps0
    ∧ (∀ lib, shared_reexport_error lib ∈ reexport_errors deps
              ↔ lib ∈ ReexportSharedLibHeaders deps ∧ lib ∉ SharedLibs deps)
    ∧ (∀ lib, static_reexport_error lib ∈ reexport_errors deps
              ↔ lib ∈ ReexportStaticLibHeaders deps ∧ lib ∉ StaticLibs deps).
Proof.
  intros Hstages. exists (dedupDeps deps0).
  rewrite Module_deps_eq, Hstages.
  split; [done|]. do 4 (split; [done|]).
  unfold reexport_errors. set (d := dedupDeps deps0).
  split; intros lib; rewrite elem_of_app, !list_elem_of_omap.
  - split.
    + intros [(x & Hx & Hsome)|(x & Hx & Hsome)].
      * unfold inList in Hsome. case_bool_decide; [done|].
        injection Hsome as ->. done.
      * destruct (inList x (StaticLibs d)); done.
    + intros [Hin Hnin]. left. exists lib. split; [done|].
      unfold inList. by rewrite bool_decide_eq_false_2.
  - split.
    + intros [(x & Hx & Hsome)|(x & Hx & Hsome)].
      * destruct (inList x (SharedLibs d)); done.
      * unfold inList in Hsome. case_bool_decide; [done|].
        injection Hsome as ->. done.
    + intros [Hin Hnin]. right. exists lib. split; [done|].
      unfold inList. by rewrite bool_decide_eq_false_2.
Qed.

Lemma Module_deps_reexport_errors_witness :
  ∃ deps0 st0,
    Module_deps_stages library_reexporting
      {| actx := device_context "libreexport"; mod_ := library_reexporting |}
      (fresh_state ∅) = Ok (deps0, st0)
    ∧ ∃ deps,
        Module_deps library_reexporting
          {| actx := device_context "libreexport"; mod_ := library_reexporting |}
          (fresh_state ∅)
        = Ok (deps, set_errs (errs st0 ++ reexport_errors deps) st0)
        ∧ SharedLibs deps = lastUnique (SharedLibs deps0)
        ∧ StaticLibs deps = lastUnique (StaticLibs deps0)
        ∧ ReexportSharedLibHeaders deps = ReexportSharedLibHeaders deps0
        ∧ ReexportStaticLibHeaders deps = ReexportStaticLibHeaders deps0
        ∧ (∀ lib, shared_reexport_error lib ∈ reexport_errors deps
                  ↔ lib ∈ ReexportSharedLibHeaders deps ∧ lib ∉ SharedLibs deps)
        ∧ (∀ lib, static_reexport_error lib ∈ reexport_errors deps
                  ↔ lib ∈ ReexportStaticLibHeaders deps ∧ lib ∉ StaticLibs deps).
Proof.
  eexists _, _. split; [vm_compute; reflexivity|].
  apply Module_deps_reexport_errors. vm_compute. reflexivity.
Defined.

(** On [library_reexporting] the one error is the one for [libbar]. *)
Example library_reexporting_errors :
  ∃ deps st,
    Module_deps library_reexporting
      {| actx := device_context "libreexport"; mod_ := library_reexporting |}
      (fresh_state ∅) = Ok (deps, st)
    ∧ errs st = [shared_reexport_error "libbar"].
Proof.
  eexists _, _. rewrite Module_deps_eq. split; vm_compute; reflexivity.
Qed.

(** ** [deps] of the linkers *)

(** What [baseLinker.deps] appends to each of the four library buckets. *)
Lemma baseLinker_deps_buckets linker ctx deps :
  let props := blProperties linker in
  let deps' := baseLinker_deps linker ctx deps in
  StaticLibs deps' =
    StaticLibs deps ++ Static_libs props
    ++ (if negb (sdk ctx) && bool_decide (ModuleName ctx ≠ "libcompiler_rt-extras")
        then ["libcompiler_rt-extras"] else [])
  ∧ SharedLibs deps' =
    SharedLibs deps ++ Shared_libs props
    ++ (if Device ctx && sdk ctx
        then ["ndk_libc." +:+ sdkVersion ctx; "ndk_libm." +:+ sdkVersion ctx] else [])
  ∧ LateStaticLibs deps' =
    LateStaticLibs deps
    ++ (if Device ctx
        then "libatomic" :: (if Bool (No_libgcc props) then [] else ["libgcc"])
        else [])
  ∧ LateSharedLibs deps' =
    LateSharedLibs deps
    ++ (if Device ctx && negb (static linker) then
          match System_shared_libs props with
          | Some libs => libs
          | None => if sdk ctx then [] else ["libc"; "libm"]
          end
        else []).
Proof.
  unfold baseLinker_deps.
  destruct (sdk ctx), (bool_decide (ModuleName ctx ≠ "libcompiler_rt-extras")),
    (Device ctx), (Bool (No_libgcc (blProperties linker))), (static linker),
    (System_shared_libs (blProperties linker)); simpl;
    rewrite ?(right_id_L [] (++)), <- ?(assoc_L (++)); done.
Qed.

(** C1 (as the code has it): for a device binary whose static-libs list,
    declared or accumulated, contains [libc]: a dynamic executable is
    rejected, [binaryLinker.deps] reports the module error "statically
    linking libc to dynamic executable"; a static executable is accepted,
    [binaryLinker.deps] reports nothing and moves [libc] from the static
    bucket to the late-static bucket. *)
Theorem binaryLinker_deps_libc binary (ctx : BaseModuleContext) deps st :
  Device ctx = true →
  "libc" ∈ StaticLibs deps ++ Static_libs (blProperties (bin_baseLinker binary)) →
  ∃ deps',
    if binaryLinker_buildStatic binary then
      (binaryLinker_deps binary ctx deps st = Ok (deps', st)
       ∧ ("libc" ∉ StaticLibs deps') ∧ "libc" ∈ LateStaticLibs deps')
    else
      (binaryLinker_deps binary ctx deps st
       = Ok (deps', set_errs (errs st ++ [libc_in_dynamic_executable]) st)).
Proof.
  intros HDevice Hlibc.
  destruct (baseLinker_deps_buckets (bin_baseLinker binary) ctx deps)
    as (HStatic & _ & _ & _).
  cbv zeta in HStatic.
  assert (Hin : "libc" ∈ StaticLibs (baseLinker_deps (bin_baseLinker binary) ctx deps)).
  { rewrite HStatic, (assoc_L (++)). apply elem_of_app. by left. }
  clear HStatic Hlibc.
  unfold binaryLinker_deps, binaryLinker_buildShared.
  set (d := baseLinker_deps (bin_baseLinker binary) ctx deps) in *.
  rewrite HDevice.
  destruct (binaryLinker_buildStatic binary) eqn:Hstatic.
  - unfold binaryLinker_buildStatic in Hstatic. rewrite Hstatic. simpl.
    destruct (sdk ctx); simpl;
      destruct (inList "libc++_static" (StaticLibs d)); simpl;
      eexists; (split; [reflexivity|]); simpl;
      (split;
       [rewrite list_elem_of_filter; intros [Hn _]; apply Hn;
        apply elem_of_cons; by left
       |apply elem_of_app; left;
        apply list_elem_of_filter; split;
        [apply elem_of_cons; by left|rewrite ?elem_of_app; auto]]).
  - unfold binaryLinker_buildStatic in Hstatic. rewrite Hstatic. simpl.
    destruct (sdk ctx); simpl; unfold inList;
      rewrite bool_decide_eq_true_2 by done; eexists; reflexivity.
Qed.

Lemma binaryLinker_deps_libc_witness :
  ∃ deps',
    binaryLinker_deps (new_binaryLinker ["libfoo"; "libc"] None)
      {| actx := device_context "toybox"; mod_ := dynamic_binary_libc |}
      EmptyDeps (fresh_state ∅)
    = Ok (deps', set_errs (errs (fresh_state ∅) ++ [libc_in_dynamic_executable])
                   (fresh_state ∅)).
Proof.
  apply (binaryLinker_deps_libc (new_binaryLinker ["libfoo"; "libc"] None)
           {| actx := device_context "toybox"; mod_ := dynamic_binary_libc |}
           EmptyDeps (fresh_state ∅)).
  - reflexivity.
  - simpl. apply list_elem_of_further, list_elem_of_here.
Defined.

(** A device binary that asks for a static executable and lists [libc] in
    its [static_libs] is accepted: the whole [deps] mutator reports no error,
    and [libc] heads the late-static bucket. *)
Lemma static_executable_with_libc_accepted :
  ∃ c calls st,
    Static_executable (binProperties (new_binaryLinker ["libfoo"; "libc"] (Some true)))
      = Some true
    ∧ "libc" ∈ Static_libs (blProperties (bin_baseLinker
                 (new_binaryLinker ["libfoo"; "libc"] (Some true))))
    ∧ Module_depsMutator static_binary_libc (device_context "init") (fresh_state ∅)
      = Ok ((c, calls), st)
    ∧ errs st = []
    ∧ AddVariationDependencies [("link", "static")] lateStaticDepTag
        ["libc"; "libatomic"; "libgcc"] ∈ calls.
Proof.
  eexists _, _, _. split; [reflexivity|].
  split; [simpl; apply list_elem_of_further, list_elem_of_here|].
  unfold Module_depsMutator. unfold mbind, M_bind. rewrite Module_deps_eq.
  split; [vm_compute; reflexivity|].
  split; [reflexivity|].
  simpl. do 3 apply list_elem_of_further. apply list_elem_of_here.
Qed.

(** ** [linkageMutator] *)

(** C2 (as the code has it): when a library module is expanded into a static
    and a shared sibling, the shared sibling gets the reuse edge to the static
    sibling, with its own source list cleared, if and only if neither link
    mode declares flags of its own ([static.cflags] and [shared.cflags] are
    both empty); otherwise the shared sibling keeps its source list and no
    edge is added.  The sources a mode declares for itself play no part. *)
Theorem linkageMutator_reuse m name st linker lc :
  m_linker m = Some linker →
  baseLinkerInterface linker = true →
  buildStatic linker = true →
  buildShared linker = true →
  m_compiler m = Some (LibraryCompiler lc) →
  let static := set_m_linker (Some (setStatic true linker)) m in
  let shared := set_m_linker (Some (setStatic false linker)) m in
  if decide (v_Cflags (cStatic (lcProperties lc)) = []
             ∧ v_Cflags (cShared (lcProperties lc)) = [])
  then
    linkageMutator m name st
    = Ok (([("static", static);
            ("shared", set_m_compiler (Some (LibraryCompiler (clear_Srcs lc))) shared)],
           [reuse_edge]), st)
  else
    linkageMutator m name st = Ok (([("static", static); ("shared", shared)], []), st).
Proof.
  intros Hl Hi Hs Hd Hc. cbv zeta.
  unfold linkageMutator. rewrite Hl, Hi, Hs, Hd. simpl. rewrite Hc.
  destruct (decide _) as [[-> ->]|Hne]; [done|].
  destruct (v_Cflags (cStatic (lcProperties lc))) as [|f fs],
    (v_Cflags (cShared (lcProperties lc))) as [|g gs]; simpl; try done.
  by destruct Hne.
Qed.

Lemma linkageMutator_reuse_witness :
  ∃ lc,
    m_compiler library_shared_srcs = Some (LibraryCompiler lc)
    ∧ ∃ static shared,
        linkageMutator library_shared_srcs "libfoo" (fresh_state ∅)
        = Ok (([("static", static); ("shared", shared)], [reuse_edge]), fresh_state ∅)
        ∧ common_Srcs static = ["common.c"] ∧ common_Srcs shared = [].
Proof.
  eexists. split; [reflexivity|]. eexists _, _. split.
  - exact (linkageMutator_reuse library_shared_srcs "libfoo" (fresh_state ∅) _ _
             eq_refl eq_refl eq_refl eq_refl eq_refl).
  - split; reflexivity.
Defined.

(** The shared sibling of a library with a source file of its own for the
    shared mode reuses the objects of the static sibling all the same, and a
    library without any source of its own for a mode, but with a flag for one,
    does not. *)
Lemma reuse_not_decided_by_mode_sources :
  (∃ static shared,
     linkageMutator library_shared_srcs "libfoo" (fresh_state ∅)
     = Ok (([("static", static); ("shared", shared)], [reuse_edge]), fresh_state ∅)
     ∧ common_Srcs shared = []
     ∧ (∃ lc, m_compiler shared = Some (LibraryCompiler lc)
              ∧ v_Srcs (cShared (lcProperties lc)) = ["shared_only.c"]))
  ∧ (∃ static shared,
       linkageMutator library_static_cflags "libbar" (fresh_state ∅)
       = Ok (([("static", static); ("shared", shared)], []), fresh_state ∅)
       ∧ common_Srcs shared = ["common.c"]
       ∧ (∃ lc, m_compiler shared = Some (LibraryCompiler lc)
                ∧ v_Srcs (cStatic (lcProperties lc)) = []
                ∧ v_Srcs (cShared (lcProperties lc)) = [])).
Proof.
  split.
  - eexists _, _. split; [vm_compute; reflexivity|]. split; [reflexivity|].
    eexists. split; reflexivity.
  - eexists _, _. split; [vm_compute; reflexivity|]. split; [reflexivity|].
    eexists. split; [reflexivity|]. split; reflexivity.
Qed.




(** ** Whole-static edges *)

(** The only call of [depsMutator] with the whole-static tag asks for the
    static variation. *)
Lemma depsMutator_wholeStatic c actx st c' calls st' :
  Module_depsMutator c actx st = Ok ((c', calls), st') →
  ∃ deps,
    Module_deps (Module_begin c actx)
      {| actx := actx; mod_ := Module_begin c actx |} st = Ok (deps, st')
    ∧ AddVariationDependencies [("link", "static")] wholeStaticDepTag
        (WholeStaticLibs deps) ∈ calls
    ∧ ∀ variations names,
        AddVariationDependencies variations wholeStaticDepTag names ∈ calls →
        variations = [("link", "static")] ∧ names = WholeStaticLibs deps.
Proof.
  unfold Module_depsMutator. unfold mbind, M_bind.
  destruct (Module_deps _ _ st) as [fmt args|[deps st1]]; [done|].
  intros [= <- <- <-]. exists deps. split; [done|].
  split; [apply list_elem_of_here|].
  intros variations names Hin.
  repeat (rewrite elem_of_cons in Hin || rewrite elem_of_app in Hin).
  destruct_or!; try done.
  - by injection Hin as -> ->.
  - apply list_elem_of_fmap in Hin as (lib & Heq & _).
    by destruct (inList lib (ReexportStaticLibHeaders deps)).
  - apply list_elem_of_fmap in Hin as (lib & Heq & _).
    by destruct (inList lib (ReexportSharedLibHeaders deps)).
  - case_bool_decide; [|by apply elem_of_nil in Hin].
    by apply list_elem_of_singleton in Hin.
  - case_bool_decide; [|by apply elem_of_nil in Hin].
    by apply list_elem_of_singleton in Hin.
Qed.

Lemma set_pCflags_only (d : PathDeps) :
  d = set_pReexportedCflags (pReexportedCflags d) (set_pCflags (pCflags d) d).
Proof. by destruct d. Qed.

Lemma visit_switch_wholeStatic_not_static id node cc out dp st :
  is_static_library (CcModule cc) = false →
  visit_switch id node cc out (CcDepTag wholeStaticDepTag) dp st
  = Ok (dp, set_errs
              (errs st ++ [ModuleError "module %q not a static library" [node_name node]])
              st).
Proof.
  intros Hstatic. unfold visit_switch. simpl in *.
  destruct (m_linker cc) as [[l| | | | | | | |]|]; try done.
  by rewrite Hstatic.
Qed.

(** The visit of a whole-static edge whose target is not a static library
    reports module errors and records no path and no object. *)
Lemma visit_wholeStatic_not_static c ctx d depPaths st node :
  graph st !! dep_node d = Some node →
  dep_tag d = CcDepTag wholeStaticDepTag →
  is_static_library (node_module node) = false →
  ∃ depPaths' es,
    visit c ctx d depPaths st = Ok (depPaths', set_errs (errs st ++ es) st)
    ∧ es ≠ []
    ∧ Forall is_ModuleError es
    ∧ depPaths' = set_pReexportedCflags (pReexportedCflags depPaths')
                    (set_pCflags (pCflags depPaths') depPaths)
    ∧ (∀ cc out,
         node_module node = CcModule cc → Enabled cc = true →
         Target_Os cc = Os ctx → Target_ArchType cc = ArchType ctx →
         outputFile cc = Some out →
         ModuleError "module %q not a static library" [node_name node] ∈ es).
Proof.
  intros Hnode Htag Hstatic.
  unfold visit. unfold mbind at 1, M_bind at 1, getNode. rewrite Hnode, Htag.
  destruct (node_module node) as [|files dir| |cc] eqn:Hm;
    [eexists _, [_]; split; [reflexivity|];
     split; [done|]; split; [by repeat constructor|];
     split; [by destruct depPaths|]; by intros cc out [=]..|].
  simpl in Hstatic.
  destruct (Enabled cc) eqn:HE; simpl;
    [|eexists _, [_]; split; [reflexivity|];
      split; [done|]; split; [by repeat constructor|];
      split; [by destruct depPaths|]; by intros cc' out [= <-]; rewrite HE].
  case_bool_decide as HOs;
    [eexists _, [_]; split; [reflexivity|];
     split; [done|]; split; [by repeat constructor|];
     split; [by destruct depPaths|]; by intros cc' out [= <-]|].
  case_bool_decide as HArch;
    [eexists _, [_]; split; [reflexivity|];
     split; [done|]; split; [by repeat constructor|];
     split; [by destruct depPaths|]; by intros cc' out [= <-]|].
  destruct (outputFile cc) as [out|] eqn:Hout;
    [|eexists _, [_]; split; [reflexivity|];
      split; [done|]; split; [by repeat constructor|];
      split; [by destruct depPaths|]; by intros cc' out [= <-]; rewrite Hout].
  unfold mbind, M_bind.
  destruct (linkTypeOk c cc); simpl.
  - rewrite visit_switch_wholeStatic_not_static by done. destruct (exportedFlagsProducer (m_linker cc)) as [cflags|];
      (eexists _, [_]; split; [reflexivity|]);
      (split; [done|]); (split; [by repeat constructor|]);
      (split; [by destruct depPaths|]);
      intros; apply list_elem_of_here.
  - rewrite visit_switch_wholeStatic_not_static by done.
    simpl. rewrite <- (assoc_L (++)).
    destruct (exportedFlagsProducer (m_linker cc)) as [cflags|];
      (eexists _, [_; _]; split; [reflexivity|]);
      (split; [done|]); (split; [by repeat constructor|]);
      (split; [by destruct depPaths|]);
      intros; apply list_elem_of_further, list_elem_of_here.
Qed.

(** C5: every whole-static-lib edge [depsMutator] adds asks for the static
    link-mode variation of its target, whatever the module itself builds: the
    one call with the whole-static tag carries the variation [link = static]
    and the deduplicated whole-static list.  At resolution, a whole-static
    edge whose target is not a static-library variant makes the visit report
    module errors ("module %q not a static library" when the target passed
    the earlier checks) and return with no path and no object of the target
    recorded: nothing but the flag lists of the [PathDeps] can differ. *)
Theorem wholeStatic_edge_wants_static_library :
  (∀ c actx st c' calls st',
     Module_depsMutator c actx st = Ok ((c', calls), st') →
     ∃ deps,
       Module_deps (Module_begin c actx)
         {| actx := actx; mod_ := Module_begin c actx |} st = Ok (deps, st')
       ∧ AddVariationDependencies [("link", "static")] wholeStaticDepTag
           (WholeStaticLibs deps) ∈ calls
       ∧ ∀ variations names,
           AddVariationDependencies variations wholeStaticDepTag names ∈ calls →
           variations = [("link", "static")] ∧ names = WholeStaticLibs deps)
  ∧ (∀ c ctx d depPaths st node,
       graph st !! dep_node d = Some node →
       dep_tag d = CcDepTag wholeStaticDepTag →
       is_static_library (node_module node) = false →
       ∃ depPaths' es,
         visit c ctx d depPaths st = Ok (depPaths', set_errs (errs st ++ es) st)
         ∧ es ≠ []
         ∧ Forall is_ModuleError es
         ∧ depPaths' = set_pReexportedCflags (pReexportedCflags depPaths')
                         (set_pCflags (pCflags depPaths') depPaths)
         ∧ (∀ cc out,
              node_module node = CcModule cc → Enabled cc = true →
              Target_Os cc = Os ctx → Target_ArchType cc = ArchType ctx →
              outputFile cc = Some out →
              ModuleError "module %q not a static library" [node_name node] ∈ es)).
Proof.
  split.
  - apply depsMutator_wholeStatic.
  - apply visit_wholeStatic_not_static.
Qed.

Lemma wholeStatic_edge_wants_static_library_witness :
  (∃ c' calls st',
     Module_depsMutator library_whole_static (device_context "libuser") (fresh_state ∅)
     = Ok ((c', calls), st')
     ∧ ∃ deps,
         Module_deps (Module_begin library_whole_static (device_context "libuser"))
           {| actx := device_context "libuser";
              mod_ := Module_begin library_whole_static (device_context "libuser") |}
           (fresh_state ∅) = Ok (deps, st')
         ∧ AddVariationDependencies [("link", "static")] wholeStaticDepTag
             (WholeStaticLibs deps) ∈ calls
         ∧ ∀ variations names,
             AddVariationDependencies variations wholeStaticDepTag names ∈ calls →
             variations = [("link", "static")] ∧ names = WholeStaticLibs deps)
  ∧ (∃ depPaths' es,
       visit library_whole_static (device_context "libuser")
         {| dep_node := 0; dep_tag := CcDepTag wholeStaticDepTag |}
         EmptyPathDeps (fresh_state {[ 0 := shared_libw ]})
       = Ok (depPaths',
             set_errs (errs (fresh_state {[ 0 := shared_libw ]}) ++ es)
               (fresh_state {[ 0 := shared_libw ]}))
       ∧ es ≠ []
       ∧ Forall is_ModuleError es
       ∧ depPaths' = set_pReexportedCflags (pReexportedCflags depPaths')
                       (set_pCflags (pCflags depPaths') EmptyPathDeps)
       ∧ (∀ cc out,
            node_module shared_libw = CcModule cc → Enabled cc = true →
            Target_Os cc = Os (device_context "libuser") →
            Target_ArchType cc = ArchType (device_context "libuser") →
            outputFile cc = Some out →
            ModuleError "module %q not a static library" [node_name shared_libw] ∈ es)).
Proof.
  split.
  - eexists _, _, _. split.
    + unfold Module_depsMutator. unfold mbind, M_bind. rewrite Module_deps_eq.
      vm_compute. reflexivity.
    + eapply (proj1 wholeStatic_edge_wants_static_library).
      unfold Module_depsMutator. unfold mbind, M_bind. rewrite Module_deps_eq.
      vm_compute. reflexivity.
  - apply (proj2 wholeStatic_edge_wants_static_library
             library_whole_static (device_context "libuser")
             {| dep_node := 0; dep_tag := CcDepTag wholeStaticDepTag |}
             EmptyPathDeps (fresh_state {[ 0 := shared_libw ]}) shared_libw).
    + apply lookup_singleton_eq.
    + reflexivity.
    + reflexivity.
Defined.

(** ** Missing dependencies of whole-static libraries *)

(** The visit of a whole-static edge to a static library that holds missing
    dependencies: they are forwarded with the postfix, the objects of the
    library are absorbed, its archive goes to the whole-static bucket, and
    the list the library itself holds is rewritten with the postfix. *)
Lemma visit_wholeStatic_missingDeps c ctx d depPaths st node cc staticLib out missing :
  graph st !! dep_node d = Some node →
  dep_tag d = CcDepTag wholeStaticDepTag →
  node_module node = CcModule cc →
  Enabled cc = true → Target_Os cc = Os ctx → Target_ArchType cc = ArchType ctx →
  outputFile cc = Some out →
  m_linker cc = Some (LibraryLinker staticLib) →
  static (ll_baseLinker staticLib) = true →
  linkTypeOk c cc = true →
  wholeStaticMissingDeps staticLib = Some missing →
  let forwarded := add_postfix (" (required by " +:+ node_name node +:+ ")") missing in
  ∃ depPaths' st',
    visit c ctx d depPaths st = Ok (depPaths', st')
    ∧ errs st' = errs st
    ∧ missingDeps st' = missingDeps st ++ forwarded
    ∧ pWholeStaticLibObjFiles depPaths'
      = pWholeStaticLibObjFiles depPaths ++ objFiles staticLib
    ∧ pWholeStaticLibs depPaths' = pWholeStaticLibs depPaths ++ [out]
    ∧ graph st' =
      <[dep_node d :=
          set_node_module
            (CcModule (set_m_linker
               (Some (LibraryLinker (set_wholeStaticMissingDeps (Some forwarded) staticLib)))
               cc)) node]> (graph st).
Proof.
  intros Hnode Htag Hm HE HOs HArch Hout Hl Hstatic Hok Hmissing forwarded.
  unfold visit. unfold mbind at 1, M_bind at 1, getNode. rewrite Hnode, Htag, Hm.
  rewrite HE, HOs, HArch, Hout. simpl.
  rewrite !bool_decide_eq_false_2 by (by intros ?).
  unfold mbind, M_bind. rewrite Hok. simpl.
  unfold visit_switch. simpl. rewrite Hl, Hstatic. simpl. rewrite Hmissing. simpl.
  unfold exportedFlagsProducer.
  eexists _, _. split; [reflexivity|]. simpl. done.
Qed.

(** C6, at two consumers of one library: [W] holds the missing dependency
    [X].  The resolution of [C1] absorbs the objects of [W] and forwards
    "X (required by W)", and the static link of [C1] records that name and
    the absorbed objects for the consumers of [C1]; but the resolution also
    rewrites the list [W] itself holds, so that the resolution of [C2], in a
    fresh context over the same graph, forwards
    "X (required by W) (required by W)". *)
Theorem wholeStatic_missingDeps_annotated_again :
  recorded_by_W graph_W = Some ["X"]
  ∧ missing_after
      (Module_depsToPaths (static_library ["W"]) (device_context "C1") [edge_to_W]
         (fresh_state graph_W))
    = Some ["X (required by W)"]
  ∧ objects_absorbed
      (Module_depsToPaths (static_library ["W"]) (device_context "C1") [edge_to_W]
         (fresh_state graph_W))
    = Some ["out/W/w.o"]
  ∧ wholeStaticMissingDeps <$> C1_linked = Some (Some ["X (required by W)"])
  ∧ objFiles <$> C1_linked = Some ["out/W/w.o"; "out/C1/a.o"]
  ∧ recorded_by_W
      (graph_after graph_W
         (Module_depsToPaths (static_library ["W"]) (device_context "C1") [edge_to_W]
            (fresh_state graph_W)))
    = Some ["X (required by W)"]
  ∧ missing_after
      (Module_depsToPaths (static_library ["W"]) (device_context "C2") [edge_to_W]
         (fresh_state
            (graph_after graph_W
               (Module_depsToPaths (static_library ["W"]) (device_context "C1")
                  [edge_to_W] (fresh_state graph_W)))))
    = Some ["X (required by W) (required by W)"].
Proof. repeat split; vm_compute; reflexivity. Qed.

(** ** The resolver and the graph *)

Lemma relink_relink v v' n : relink v' (relink v n) = relink v' n.
Proof.
  unfold relink.
  destruct (node_module n) as [| | |cc] eqn:Hm; simpl; rewrite ?Hm; try done.
  destruct (m_linker cc) as [[staticLib| | | | | | | |]|] eqn:Hl; simpl;
    rewrite ?Hm; simpl; rewrite ?Hl; done.
Qed.

Lemma node_later_refl n : node_later n n.
Proof. by left. Qed.

Lemma node_later_trans n1 n2 n3 :
  node_later n1 n2 → node_later n2 n3 → node_later n1 n3.
Proof.
  intros [->|[v ->]] [->|[v' ->]]; [by left|right; by exists v'|right; by exists v|].
  right. exists v'. apply relink_relink.
Qed.

Lemma later_refl g : later g g.
Proof. intros id. destruct (g !! id); constructor. apply node_later_refl. Qed.

Lemma later_trans g1 g2 g3 : later g1 g2 → later g2 g3 → later g1 g3.
Proof.
  intros H12 H23 id. specialize (H12 id). specialize (H23 id).
  destruct H12 as [n1 n2 H12|]; inversion H23; subst; constructor.
  by eapply node_later_trans.
Qed.

Lemma later_insert g g' id n n' :
  later g g' → node_later n n' → later (<[id := n]> g) (<[id := n']> g').
Proof.
  intros Hg Hn id'. destruct (decide (id' = id)) as [->|Hne].
  - rewrite !lookup_insert_eq. by constructor.
  - rewrite !lookup_insert_ne by done. apply Hg.
Qed.

Lemma later_insert_l g g' id n n' :
  later g g' → g' !! id = Some n' → node_later n n' → later (<[id := n]> g) g'.
Proof.
  intros Hg Hid Hn id'. destruct (decide (id' = id)) as [->|Hne].
  - rewrite lookup_insert_eq, Hid. by constructor.
  - rewrite lookup_insert_ne by done. apply Hg.
Qed.

Lemma later_insert_r g g' id n n' :
  later g g' → g !! id = Some n → node_later n n' → later g (<[id := n']> g').
Proof.
  intros Hg Hid Hn id'. destruct (decide (id' = id)) as [->|Hne].
  - rewrite lookup_insert_eq, Hid. by constructor.
  - rewrite lookup_insert_ne by done. apply Hg.
Qed.

(** A node that a library links records some missing dependencies; another
    node is left alone by [relink]. *)
Lemma relink_cases n :
  (∃ cc staticLib,
     node_module n = CcModule cc ∧ m_linker cc = Some (LibraryLinker staticLib)
     ∧ n = relink (wholeStaticMissingDeps staticLib) n)
  ∨ (∀ v, relink v n = n)
    ∧ ∀ cc staticLib,
        node_module n = CcModule cc → m_linker cc ≠ Some (LibraryLinker staticLib).
Proof.
  unfold relink. destruct n as [name [| | |cc]]; simpl; try (right; by split).
  destruct cc as [? ? ? ? ? [[staticLib| | | | | | | |]|] ? ? ? ?]; simpl;
    try (right; split; [done|by intros ? ? [= <-]]).
  left. eexists _, _. split; [done|]. split; [done|]. by destruct staticLib.
Qed.

(** ** The link of a shared library *)

(** [linkShared] always returns, and the last rule it emits is the link,
    whose shared libraries are the ordinary bucket followed by the late
    bucket. *)
Lemma libraryLinker_linkShared_rule library ctx flags deps objFiles_ st :
  ∃ out st' linkerDeps builderFlags outputFile,
    libraryLinker_linkShared library ctx flags deps objFiles_ st = Ok (out, st')
    ∧ last (rules st')
      = Some (TransformObjToDynamicBinary objFiles_
                (pSharedLibs deps ++ pLateSharedLibs deps)
                (pStaticLibs deps) (pLateStaticLibs deps) (pWholeStaticLibs deps)
                linkerDeps (pCrtBegin deps) (pCrtEnd deps) false
                builderFlags outputFile).
Proof.
  unfold libraryLinker_linkShared.
  destruct (isDarwin ctx) eqn:HD,
    (Version_script (llProperties library)),
    (Unexported_symbols_list (llProperties library)),
    (Force_symbols_not_weak_list (llProperties library)),
    (Force_symbols_weak_list (llProperties library)),
    (needsStrip (ll_stripper library) ctx);
    simpl; unfold mbind, M_bind, strip; simpl; rewrite ?HD; simpl;
    eexists _, _, _, _, _; (split; [reflexivity|]); simpl;
    by rewrite last_snoc.
Qed.


(** On a device library that declares [libc] before [libz] among its shared
    libraries, the late-shared bucket still holds the system libraries and
    the shared bucket the declared ones. *)
Example system_libraries_example :
  let m := device_module ""
    (Some (LibraryCompiler (new_libraryCompiler ["a.c"] no_variant_compiler no_variant_compiler)))
    (Some (LibraryLinker
       (new_libraryLinker
          {| Whole_static_libs := []; Static_libs := [];
             Shared_libs := ["libm"; "libz"]; System_shared_libs := None;
             No_libgcc := None;
             Export_shared_lib_headers := []; Export_static_lib_headers := [] |}
          true false))) in
  ∃ deps st,
    Module_deps m {| actx := device_context "libfoo"; mod_ := m |} (fresh_state ∅)
    = Ok (deps, st)
    ∧ SharedLibs deps = ["libm"; "libz"]
    ∧ LateSharedLibs deps = ["libc"; "libm"]
    ∧ LateStaticLibs deps = ["libatomic"; "libgcc"].
Proof.
  intros m. eexists _, _. rewrite Module_deps_eq.
  split; [vm_compute; reflexivity|]. done.
Qed.

(** ** Determinism of [Module.deps] *)

Lemma reports_only_ret {A} (a : A) : reports_only (mret a).
Proof.
  exists (Ok (a, [])). intros st. simpl.
  by rewrite (right_id_L [] (++)), set_errs_id.
Qed.

Lemma reports_only_run_feature {A} (r : Result (A * list Error)) :
  reports_only (run_feature r).
Proof. by exists r. Qed.

Lemma reports_only_panic {A} fmt args : reports_only (panic (A := A) fmt args).
Proof. by exists (Panic fmt args). Qed.

Lemma reports_only_ModuleErrorf fmt args : reports_only (ModuleErrorf fmt args).
Proof. by exists (Ok ((), [ModuleError fmt args])). Qed.

Lemma reports_only_PropertyErrorf property fmt args :
  reports_only (PropertyErrorf property fmt args).
Proof. by exists (Ok ((), [PropertyError property fmt args])). Qed.

Lemma reports_only_bind {A B} (m : M A) (f : A → M B) :
  reports_only m → (∀ a, reports_only (f a)) → reports_only (m ≫= f).
Proof.
  intros [r Hm] Hf. destruct r as [fmt args|[a es]].
  - exists (Panic fmt args). intros st. unfold mbind, M_bind. by rewrite Hm.
  - destruct (Hf a) as [[fmt args|[b es']] Hfa].
    + exists (Panic fmt args). intros st. unfold mbind, M_bind.
      by rewrite Hm; simpl; rewrite Hfa.
    + exists (Ok (b, es ++ es')). intros st. unfold mbind, M_bind.
      rewrite Hm; simpl; rewrite Hfa; simpl. by rewrite (assoc_L (++)).
Qed.

Lemma reports_only_forRange {A} (l : list A) (body : A → M unit) :
  (∀ x, reports_only (body x)) → reports_only (forRange l body).
Proof.
  intros Hbody. induction l as [|x l IH]; simpl.
  - apply reports_only_ret.
  - apply reports_only_bind; [apply Hbody|by intros _].
Qed.

Create HintDb reports discriminated.

#[local] Hint Resolve reports_only_ret reports_only_run_feature reports_only_panic
  reports_only_ModuleErrorf reports_only_PropertyErrorf : reports.

#[local] Hint Extern 2 (reports_only (_ ≫= _)) =>
  apply reports_only_bind; [|intros ?] : reports.
#[local] Hint Extern 2 (reports_only (forRange _ _)) =>
  apply reports_only_forRange; intros ? : reports.
#[local] Hint Extern 3 (reports_only (if ?b then _ else _)) => destruct b : reports.
#[local] Hint Extern 3 (reports_only (match ?x with _ => _ end)) => destruct x : reports.

Lemma reports_only_binaryLinker_deps binary ctx deps :
  reports_only (binaryLinker_deps binary ctx deps).
Proof. unfold binaryLinker_deps. auto 10 with reports. Qed.

#[local] Hint Resolve reports_only_binaryLinker_deps : reports.

Lemma reports_only_linker_deps l ctx deps : reports_only (linker_deps l ctx deps).
Proof.
  destruct l; simpl; unfold testLinker_deps, benchmarkLinker_deps;
    auto 10 with reports.
Qed.

Lemma reports_only_compiler_deps c ctx deps : reports_only (compiler_deps c ctx deps).
Proof. destruct c; simpl; auto with reports. Qed.

Lemma reports_only_features_deps fs ctx deps :
  reports_only (features_deps fs ctx deps).
Proof.
  revert deps. induction fs as [|f fs IH]; intros deps; simpl; auto with reports.
Qed.

#[local] Hint Resolve reports_only_linker_deps reports_only_compiler_deps
  reports_only_features_deps : reports.

Lemma reports_only_Module_deps_stages c ctx : reports_only (Module_deps_stages c ctx).
Proof.
  unfold Module_deps_stages, optional_stage.
  repeat (apply reports_only_bind; [|intros ?]); auto with reports.
Qed.

Lemma reports_only_call_lastUniqueElements l :
  reports_only (call_lastUniqueElements l).
Proof.
  unfold call_lastUniqueElements. destruct (lastUniqueElements l); auto with reports.
Qed.

Lemma reports_only_Module_deps c ctx : reports_only (Module_deps c ctx).
Proof.
  unfold Module_deps.
  repeat (apply reports_only_bind;
          [first [apply reports_only_Module_deps_stages
                 |apply reports_only_call_lastUniqueElements
                 |apply reports_only_forRange; intros ?; auto with reports]
          |intros ?]).
  auto with reports.
Qed.


(** Two runs on [library_reexporting], the second in the state the first
    left: the same buckets, and the error for [libbar] once per run. *)
Example Module_deps_twice :
  let ctx := {| actx := device_context "libreexport"; mod_ := library_reexporting |} in
  ∃ deps st1 st2,
    Module_deps library_reexporting ctx (fresh_state ∅) = Ok (deps, st1)
    ∧ Module_deps library_reexporting ctx st1 = Ok (deps, st2)
    ∧ SharedLibs deps = ["libfoo"]
    ∧ StaticLibs deps = ["libcompiler_rt-extras"]
    ∧ LateStaticLibs deps = ["libatomic"; "libgcc"]
    ∧ LateSharedLibs deps = ["libc"; "libm"]
    ∧ errs st1 = [shared_reexport_error "libbar"]
    ∧ errs st2 = [shared_reexport_error "libbar"; shared_reexport_error "libbar"].
Proof.
  intros ctx. eexists _, _, _. rewrite !Module_deps_eq.
  split; [vm_compute; reflexivity|]. split; [vm_compute; reflexivity|]. done.
Qed.

(** ** The illegal-flag filter *)

(** C10: the filter of [illegalFlags], applied once after the flag stages,
    rewrites the C, C++ and C-only flag lists, from which it removes every
    denylisted entry and nothing else, and leaves every other field of the
    flag set as it was, among them the global, assembler, linker and Yacc
    flag lists: a denylisted flag in one of these survives.  The [asflags]
    variable [GenerateAndroidBuildActions] then emits is the join of the
    assembler flags as the stages left them. *)
Theorem illegalFlags_filter_frame :
  (∀ flags,
     let flags' := filter_illegalFlags flags in
     GlobalFlags flags' = GlobalFlags flags
     ∧ AsFlags flags' = AsFlags flags
     ∧ LdFlags flags' = LdFlags flags
     ∧ YaccFlags flags' = YaccFlags flags
     ∧ libFlags flags' = libFlags flags
     ∧ CFlags flags' = filter (λ f, f ∉ illegalFlags) (CFlags flags)
     ∧ CppFlags flags' = filter (λ f, f ∉ illegalFlags) (CppFlags flags)
     ∧ ConlyFlags flags' = filter (λ f, f ∉ illegalFlags) (ConlyFlags flags))
  ∧ (∀ flags f,
       (f ∈ CFlags (filter_illegalFlags flags) ↔ f ∈ CFlags flags ∧ f ∉ illegalFlags)
       ∧ (f ∈ CppFlags (filter_illegalFlags flags)
          ↔ f ∈ CppFlags flags ∧ f ∉ illegalFlags)
       ∧ (f ∈ ConlyFlags (filter_illegalFlags flags)
          ↔ f ∈ ConlyFlags flags ∧ f ∉ illegalFlags))
  ∧ (∀ compiler_flags linker_flags c ctx st,
       match GenerateAndroidBuildActions_stages compiler_flags linker_flags c ctx st with
       | Panic fmt args =>
           GenerateAndroidBuildActions_flags compiler_flags linker_flags c ctx st
           = Panic fmt args
       | Ok (flags, st1) =>
           if bool_decide (errs st1 ≠ []) then
             GenerateAndroidBuildActions_flags compiler_flags linker_flags c ctx st
             = Ok (None, st1)
           else
             ∃ flags',
               GenerateAndroidBuildActions_flags compiler_flags linker_flags c ctx st
               = Ok (Some flags',
                     set_rules
                       (rules st1
                        ++ [Variable_ "cflags"
                              (Join (filter (λ f, f ∉ illegalFlags) (CFlags flags)) " ");
                            Variable_ "cppflags"
                              (Join (filter (λ f, f ∉ illegalFlags) (CppFlags flags)) " ");
                            Variable_ "asflags" (Join (AsFlags flags) " ")]) st1)
               ∧ GlobalFlags flags' = GlobalFlags flags
               ∧ LdFlags flags' = LdFlags flags
               ∧ YaccFlags flags' = YaccFlags flags
               ∧ ConlyFlags flags' = filter (λ f, f ∉ illegalFlags) (ConlyFlags flags)
       end)
  ∧ variables_of
      (GenerateAndroidBuildActions_flags compiler_flags_w linker_flags_none
         dynamic_binary_libc
         {| actx := device_context "toybox"; mod_ := dynamic_binary_libc |}
         (fresh_state ∅))
    = [("cflags", "-O2"); ("cppflags", ""); ("asflags", "-w -g")].
Proof.
  split; [|split; [|split]].
  - intros flags. by destruct flags.
  - intros flags f. destruct flags. simpl.
    rewrite !list_elem_of_filter. tauto.
  - intros compiler_flags linker_flags c ctx st.
    unfold GenerateAndroidBuildActions_flags.
    destruct (GenerateAndroidBuildActions_stages _ _ c ctx st)
      as [fmt args|[flags st1]] eqn:Hst.
    { by rewrite (bind_Panic _ _ _ _ _ Hst). }
    rewrite (bind_Ok _ _ _ _ _ Hst).
    clear Hst. unfold mbind, M_bind, Failed, emit. simpl.
    destruct (bool_decide (errs st1 ≠ [])); [done|].
    destruct flags. eexists. split.
    + simpl. rewrite <- !(assoc_L (++)). reflexivity.
    + done.
  - vm_compute. reflexivity.
Qed.
